(** * New account submission (ocflib/account/submission.py)

    A shallow embedding of the submission tasks: the pending-request table,
    the two dedup queries, the conversion between a request and its stored
    row, and the four Celery tasks returned by [get_tasks].

    The Python code talks to a MySQL table through SQLAlchemy sessions, to a
    Celery application (task state, events, task enqueueing) and to three
    functions of [ocflib.account.creation].  All of this is rendered as a
    state-and-exception monad over a [World] that holds the rows of the
    [request] table and a chronological log of every externally visible
    effect. *)

From Stdlib Require Import List String ZArith Bool Lia.
From Stdlib Require Import Strings.Byte.
Import ListNotations.

Local Open Scope string_scope.
Local Open Scope list_scope.

(* ===================================================================== *)
(** ** Python values and exceptions *)
(* ===================================================================== *)

(** Modelled from the spec: the [handle_warnings] mode of a request.  The
    class [NewAccountRequest] and its constants [WARNINGS_CREATE],
    [WARNINGS_SUBMIT], [WARNINGS_WARN] live in [ocflib.account.creation];
    the spec names the three modes CREATE | SUBMIT | WARN.  Python does not
    restrict the field to these constants, so any other value a caller may
    put there is kept as [WARNINGS_other]. *)
Inductive handle_warnings_mode : Type :=
| WARNINGS_CREATE
| WARNINGS_SUBMIT
| WARNINGS_WARN
| WARNINGS_other (tag : string).

(** The Python values that travel through keyword dictionaries and event
    payloads in this module. *)
Inductive pyval : Type :=
| PyNone
| PyBool (b : bool)
| PyInt (z : Z)
| PyStr (s : string)
| PyBytes (b : list byte)
| PyMode (m : handle_warnings_mode)
| PyList (l : list string). (* the lists built here hold strings only *)

(** A Python [dict] with string keys, in insertion order. *)
Definition dict : Type := list (string * pyval).

Fixpoint dict_get (d : dict) (k : string) : option pyval :=
  match d with
  | [] => None
  | (k', v) :: d' => if String.eqb k' k then Some v else dict_get d' k
  end.

(** [d[k] = v]: an existing key keeps its position, a new key goes last. *)
Fixpoint dict_set (d : dict) (k : string) (v : pyval) : dict :=
  match d with
  | [] => [(k, v)]
  | (k', v') :: d' =>
      if String.eqb k' k then (k', v) :: d' else (k', v') :: dict_set d' k v
  end.

Definition str_in (k : string) (l : list string) : bool :=
  existsb (String.eqb k) l.

(** The exceptions this module can raise by itself. *)
Inductive exn : Type :=
| IntegrityError        (* a constraint of the table rejects an INSERT *)
| DataError             (* a value does not fit the column it is meant for *)
| UnmappedInstanceError (* session.delete(None) *)
| AttributeError
| TypeError.

Inductive result (A : Type) : Type :=
| Ok (a : A)
| Raise (e : exn).
Arguments Ok {A} a.
Arguments Raise {A} e.

Definition result_bind {A B} (r : result A) (f : A -> result B) : result B :=
  match r with
  | Ok a => f a
  | Raise e => Raise e
  end.

(** Python truthiness of a list: [if errors:]. *)
Definition truthy {A} (l : list A) : bool :=
  match l with
  | [] => false
  | _ :: _ => true
  end.

(** [x != 0] for a value that is an int or None. *)
Definition py_ne_zero (x : option Z) : bool :=
  match x with
  | None => true
  | Some z => negb (Z.eqb z 0)
  end.

(** [column == value] as SQLAlchemy renders it: [IS NULL] for None, and an
    [=] that no NULL cell satisfies otherwise. *)
Definition sql_eq_int (column value : option Z) : bool :=
  match value, column with
  | None, None => true
  | Some v, Some c => Z.eqb c v
  | _, _ => false
  end.

(* ===================================================================== *)
(** ** NewAccountRequest *)
(* ===================================================================== *)

Module NewAccountRequest.

(** Modelled from the spec: the namedtuple [NewAccountRequest] of
    [ocflib.account.creation], with the fields the spec lists for a
    Request (username, real name, is-group flag, university-identity ID,
    organization-identity ID, email, encrypted password, handle_warnings).
    The two identity IDs are ints or None, as the nullable columns that
    store them. *)
Record t : Type := mk {
  user_name : string;
  real_name : string;
  is_group : bool;
  calnet_uid : option Z;
  callink_oid : option Z;
  email : string;
  encrypted_password : list byte;
  handle_warnings : handle_warnings_mode
}.

(** Modelled from the spec: [NewAccountRequest._fields]. *)
Definition _fields : list string :=
  ["user_name"; "real_name"; "is_group"; "calnet_uid"; "callink_oid";
   "email"; "encrypted_password"; "handle_warnings"].

Definition as_str (v : pyval) : option string :=
  match v with PyStr s => Some s | _ => None end.
Definition as_bool (v : pyval) : option bool :=
  match v with PyBool b => Some b | _ => None end.
Definition as_int_or_none (v : pyval) : option (option Z) :=
  match v with PyInt z => Some (Some z) | PyNone => Some None | _ => None end.
Definition as_bytes (v : pyval) : option (list byte) :=
  match v with PyBytes b => Some b | _ => None end.
Definition as_mode (v : pyval) : option handle_warnings_mode :=
  match v with PyMode m => Some m | _ => None end.

Definition field {A} (kwargs : dict) (k : string) (as_ : pyval -> option A)
  : option A :=
  match dict_get kwargs k with
  | Some v => as_ v
  | None => None
  end.

(** The constructor called with the entries of [kwargs] as keywords: a
    keyword that is not a field, or a field without a keyword, is a
    TypeError. *)
Definition new (kwargs : dict) : result t :=
  if forallb (fun kv => str_in (fst kv) _fields) kwargs then
    match field kwargs "user_name" as_str,
          field kwargs "real_name" as_str,
          field kwargs "is_group" as_bool,
          field kwargs "calnet_uid" as_int_or_none,
          field kwargs "callink_oid" as_int_or_none,
          field kwargs "email" as_str,
          field kwargs "encrypted_password" as_bytes,
          field kwargs "handle_warnings" as_mode with
    | Some u, Some r, Some g, Some cu, Some co, Some e, Some p, Some m =>
        Ok (mk u r g cu co e p m)
    | _, _, _, _, _, _, _, _ => Raise TypeError
    end
  else Raise TypeError.

End NewAccountRequest.

(* ===================================================================== *)
(** ** StoredNewAccountRequest *)
(* ===================================================================== *)

Module StoredNewAccountRequest.

(** A row of the table [request].  [id] is None until the row has been
    inserted. *)
Record t : Type := mk {
  id : option Z;
  user_name : string;
  real_name : string;
  is_group : bool;
  calnet_uid : option Z;
  callink_oid : option Z;
  email : string;
  encrypted_password : list byte
}.

(** [self.__table__.columns._data.keys()] *)
Definition columns : list string :=
  ["id"; "user_name"; "real_name"; "is_group"; "calnet_uid"; "callink_oid";
   "email"; "encrypted_password"].

Definition int_or_none (x : option Z) : pyval :=
  match x with
  | Some z => PyInt z
  | None => PyNone
  end.

Definition getattr (self : t) (name : string) : result pyval :=
  if String.eqb name "id" then Ok (int_or_none (id self))
  else if String.eqb name "user_name" then Ok (PyStr (user_name self))
  else if String.eqb name "real_name" then Ok (PyStr (real_name self))
  else if String.eqb name "is_group" then Ok (PyBool (is_group self))
  else if String.eqb name "calnet_uid" then Ok (int_or_none (calnet_uid self))
  else if String.eqb name "callink_oid" then Ok (int_or_none (callink_oid self))
  else if String.eqb name "email" then Ok (PyStr (email self))
  else if String.eqb name "encrypted_password"
       then Ok (PyBytes (encrypted_password self))
  else Raise AttributeError.

Definition from_request (request : NewAccountRequest.t) : t :=
  {| id := None;
     user_name := NewAccountRequest.user_name request;
     real_name := NewAccountRequest.real_name request;
     is_group := NewAccountRequest.is_group request;
     calnet_uid := NewAccountRequest.calnet_uid request;
     callink_oid := NewAccountRequest.callink_oid request;
     email := NewAccountRequest.email request;
     encrypted_password := NewAccountRequest.encrypted_password request |}.

(** [{field: getattr(self, field) for field in fields if field in columns}] *)
Fixpoint copy_fields (self : t) (fields : list string) : result dict :=
  match fields with
  | [] => Ok []
  | f :: fields' =>
      if str_in f columns then
        result_bind (getattr self f) (fun v =>
        result_bind (copy_fields self fields') (fun d =>
        Ok ((f, v) :: d)))
      else copy_fields self fields'
  end.

(** [handle_warnings] is the optional argument; None stands for a call
    that leaves it out. *)
Definition to_request (self : t) (handle_warnings : option handle_warnings_mode)
  : result NewAccountRequest.t :=
  let handle_warnings :=
    match handle_warnings with
    | Some m => m
    | None => WARNINGS_CREATE
    end in
  result_bind (copy_fields self NewAccountRequest._fields) (fun d =>
  NewAccountRequest.new (dict_set d "handle_warnings" (PyMode handle_warnings))).

(** [__str__]; the reasons are a fixed word for now. *)
Definition __str__ (self : t) : string :=
  (user_name self ++ " ("
   ++ (if is_group self then "group" else "individual")
   ++ "), because of " ++ "reasons")%string.

End StoredNewAccountRequest.

Definition Row : Type := StoredNewAccountRequest.t.

(* ===================================================================== *)
(** ** NewAccountResponse *)
(* ===================================================================== *)

Module NewAccountResponse.

Record t : Type := mk {
  status : string;
  errors : list string
}.

Definition CREATED : string := "created".
Definition FLAGGED : string := "flagged".
Definition PENDING : string := "pending".
Definition REJECTED : string := "rejected".

End NewAccountResponse.

(* ===================================================================== *)
(** ** The world: the [request] table and the log of effects *)
(* ===================================================================== *)

(** What a task does that is visible outside of it, in the order it does
    it: the SQL statements of a committed unit of work, the progress states
    it reports, and its calls to the Provisioner, the event dispatcher, the
    task queue and the Notifier. *)
Inductive effect : Type :=
| SqlInsert (row : Row)
| SqlDelete (row : Row)
| UpdateState (status : list string)
| Provision (request : NewAccountRequest.t)
| DispatchEvent (event_type : string) (request : dict)
| TaskDelay (request : NewAccountRequest.t)
| RejectedMail (request : NewAccountRequest.t) (reason : string).

Record World : Type := mkWorld {
  rows : list Row;   (* the committed rows of the table, in table order *)
  log : list effect  (* oldest effect first *)
}.

(** A computation runs in a world, returns or raises, and leaves a world. *)
Definition M (A : Type) : Type := World -> result A * World.

Definition ret {A} (a : A) : M A := fun w => (Ok a, w).

Definition bind {A B} (m : M A) (f : A -> M B) : M B :=
  fun w =>
    match m w with
    | (Ok a, w') => f a w'
    | (Raise e, w') => (Raise e, w')
    end.

Definition lift {A} (r : result A) : M A := fun w => (r, w).

Definition emit (e : effect) : M unit :=
  fun w => (Ok tt, {| rows := rows w; log := log w ++ [e] |}).

Declare Scope task_scope.
Delimit Scope task_scope with task.
Notation "x <- c1 ;; c2" := (bind c1 (fun x => c2))
  (at level 61, c1 at next level, right associativity) : task_scope.
Notation "' pat <- c1 ;; c2" := (bind c1 (fun x => match x with pat => c2 end))
  (at level 61, pat pattern, c1 at next level, right associativity) : task_scope.
Notation "c1 ;; c2" := (bind c1 (fun _ => c2))
  (at level 61, right associativity) : task_scope.
Local Open Scope task_scope.

(* ===================================================================== *)
(** ** Sessions over the table *)
(* ===================================================================== *)

(** A session is a unit of work: the objects added and the objects marked
    for deletion since it was opened.  Nothing reaches the table before
    [session_commit]. *)
Record Session : Type := mkSession {
  session_new : list Row;
  session_deleted : list Row
}.

(** [get_session()]: every call returns a new session with an empty unit of
    work (the session factory behind it is created once, on first use). *)
Definition get_session : M Session :=
  ret {| session_new := []; session_deleted := [] |}.

Definition session_add (session : Session) (row : Row) : Session :=
  {| session_new := session_new session ++ [row];
     session_deleted := session_deleted session |}.

(** [session.delete(obj)]; SQLAlchemy refuses an object that is not a mapped
    instance, None included. *)
Definition session_delete (session : Session) (obj : option Row) : result Session :=
  match obj with
  | None => Raise UnmappedInstanceError
  | Some row =>
      Ok {| session_new := session_new session;
            session_deleted := session_deleted session ++ [row] |}
  end.

(** Equality of primary keys; a NULL key equals nothing. *)
Definition pk_eqb (a b : option Z) : bool :=
  match a, b with
  | Some x, Some y => Z.eqb x y
  | _, _ => false
  end.

(** The value the table gives to the [id] of a row inserted without one:
    above every id in use. *)
Definition next_id (table : list Row) : Z :=
  1 + fold_right
        (fun row m =>
           match StoredNewAccountRequest.id row with
           | Some n => Z.max n m
           | None => m
           end) 0%Z table.

Definition same_user_name (row : Row) (row' : Row) : bool :=
  String.eqb (StoredNewAccountRequest.user_name row')
             (StoredNewAccountRequest.user_name row).

Definition same_id (row : Row) (row' : Row) : bool :=
  pk_eqb (StoredNewAccountRequest.id row') (StoredNewAccountRequest.id row).

Definition with_id (row : Row) (n : Z) : Row :=
  {| StoredNewAccountRequest.id := Some n;
     StoredNewAccountRequest.user_name := StoredNewAccountRequest.user_name row;
     StoredNewAccountRequest.real_name := StoredNewAccountRequest.real_name row;
     StoredNewAccountRequest.is_group := StoredNewAccountRequest.is_group row;
     StoredNewAccountRequest.calnet_uid := StoredNewAccountRequest.calnet_uid row;
     StoredNewAccountRequest.callink_oid := StoredNewAccountRequest.callink_oid row;
     StoredNewAccountRequest.email := StoredNewAccountRequest.email row;
     StoredNewAccountRequest.encrypted_password :=
       StoredNewAccountRequest.encrypted_password row |}.

(** What the declared columns hold: [String(255)] at most 255 characters,
    [LargeBinary(510)] at most 510 bytes, [Integer] a signed 32-bit number
    (MySQL's INT) or NULL where the column is nullable. *)
Definition fits_string (s : string) : bool :=
  Nat.leb (String.length s) 255.

Definition fits_binary (b : list byte) : bool :=
  Nat.leb (List.length b) 510.

Definition fits_integer (x : option Z) : bool :=
  match x with
  | None => true
  | Some z => Z.leb (- 2147483648) z && Z.leb z 2147483647
  end.

Definition fits_columns (row : Row) : bool :=
  fits_integer (StoredNewAccountRequest.id row)
  && fits_string (StoredNewAccountRequest.user_name row)
  && fits_string (StoredNewAccountRequest.real_name row)
  && fits_integer (StoredNewAccountRequest.calnet_uid row)
  && fits_integer (StoredNewAccountRequest.callink_oid row)
  && fits_string (StoredNewAccountRequest.email row)
  && fits_binary (StoredNewAccountRequest.encrypted_password row).

(** The row as the table would hold it: a row added without [id] gets the
    next one. *)
Definition assign_id (table : list Row) (row : Row) : Row :=
  match StoredNewAccountRequest.id row with
  | Some _ => row
  | None => with_id row (next_id table)
  end.

(** INSERT of one row.  A value that does not fit its column is refused
    (the server in its strict mode; what a lenient server would store in its
    place is not modelled).  [id] is the primary key and [user_name] is
    declared [unique=True]; a row that repeats either is refused. *)
Definition sql_insert (table : list Row) (row : Row) : result Row :=
  if negb (fits_columns (assign_id table row)) then Raise DataError
  else if existsb (same_user_name row) table then Raise IntegrityError
  else match StoredNewAccountRequest.id row with
       | Some _ =>
           if existsb (same_id row) table then Raise IntegrityError else Ok row
       | None => Ok (with_id row (next_id table))
       end.

(** The INSERTs of a flush, in the order the objects were added. *)
Fixpoint flush_new (table : list Row) (new : list Row)
  : result (list Row * list effect) :=
  match new with
  | [] => Ok (table, [])
  | row :: new' =>
      result_bind (sql_insert table row) (fun row' =>
      result_bind (flush_new (table ++ [row']) new') (fun '(table', stmts) =>
      Ok (table', SqlInsert row' :: stmts)))
  end.

(** The DELETEs of a flush, by primary key. *)
Fixpoint flush_deleted (table : list Row) (deleted : list Row)
  : list Row * list effect :=
  match deleted with
  | [] => (table, [])
  | row :: deleted' =>
      let '(table', stmts) :=
        flush_deleted (filter (fun row' => negb (same_id row row')) table) deleted' in
      (table', SqlDelete row :: stmts)
  end.

(** [session.commit()]: the unit of work is flushed and committed as one
    transaction; if a statement is refused the transaction is rolled back
    and the exception propagates. *)
Definition session_commit (session : Session) : M unit :=
  fun w =>
    match flush_new (rows w) (session_new session) with
    | Raise e => (Raise e, w)
    | Ok (table, inserts) =>
        let '(table', deletes) := flush_deleted table (session_deleted session) in
        (Ok tt, {| rows := table'; log := log w ++ inserts ++ deletes |})
    end.

(** The three shapes of query the module issues.  Every session the module
    queries has an empty unit of work, so a query sees the committed rows. *)
Definition query_exists (session : Session) (where_ : Row -> bool) : M bool :=
  fun w => (Ok (existsb where_ (rows w)), w).

Definition query_filter_first (session : Session) (where_ : Row -> bool)
  : M (option Row) :=
  fun w => (Ok (find where_ (rows w)), w).

Definition query_all (session : Session) : M (list Row) :=
  fun w => (Ok (rows w), w).

(* ===================================================================== *)
(** ** The dedup queries *)
(* ===================================================================== *)

Definition username_pending (session : Session) (request : NewAccountRequest.t)
  : M bool :=
  query_exists session
    (fun row => String.eqb (StoredNewAccountRequest.user_name row)
                           (NewAccountRequest.user_name request)).

Definition user_has_request_pending (session : Session)
  (request : NewAccountRequest.t) : M bool :=
  let query : option (Row -> bool) :=
    if NewAccountRequest.is_group request
       && py_ne_zero (NewAccountRequest.callink_oid request)
    then Some (fun row => sql_eq_int (StoredNewAccountRequest.callink_oid row)
                                     (NewAccountRequest.callink_oid request))
    else if negb (NewAccountRequest.is_group request)
    then Some (fun row => sql_eq_int (StoredNewAccountRequest.calnet_uid row)
                                     (NewAccountRequest.calnet_uid request))
    else None in
  match query with
  | None => ret false
  | Some where_ => query_exists session where_
  end.

(* ===================================================================== *)
(** ** get_tasks *)
(* ===================================================================== *)

Section get_tasks.

(** Modelled from the spec: the Validator, [validate_request] of
    [ocflib.account.creation].  Given a request and a session into the
    pending store it returns [(errors, warnings)], two ordered lists of
    strings; it reads the store and writes nothing. *)
Variable validator :
  NewAccountRequest.t -> list Row -> list string * list string.

(** Modelled from the spec: the Account Provisioner, [create_account] of
    [ocflib.account.creation].  It is handed the progress callback and
    reports each phase it enters and leaves; [provisioner_phases] gives
    the (start, stop, task) words of these phases.  Only the calls that
    return are modelled: a failure of the Provisioner, like one of the
    event dispatcher, the task queue or the mailer, ends the task with its
    exception and is not part of this model. *)
Variable provisioner_phases :
  NewAccountRequest.t -> list (string * string * string).

(** [NewAccountRequest.to_dict], declared with the class. *)
Variable to_dict : NewAccountRequest.t -> dict.

Definition validate_request (request : NewAccountRequest.t)
  (session : Session) : M (list string * list string) :=
  fun w => (Ok (validator request (rows w)), w).

(** [dispatch_event(event_type, request=...)] *)
Definition dispatch_event (event_type : string) (request : dict) : M unit :=
  emit (DispatchEvent event_type request).

Definition send_rejected_mail (request : NewAccountRequest.t)
  (reason : string) : M unit :=
  emit (RejectedMail request reason).

(** The local list [status] of [create_account] is threaded through the
    two reporting helpers. *)
Definition _report_status (line : string) (status : list string)
  : M (list string) :=
  let status := status ++ [line] in
  emit (UpdateState status) ;;
  ret status.

(** [with report_status(start, stop, task): body].  When the body raises,
    the stop line is not reported. *)
Definition report_status {A} (start stop task : string)
  (body : list string -> M (A * list string)) (status : list string)
  : M (A * list string) :=
  status <- _report_status (start ++ " " ++ task) status ;;
  ' (a, status) <- body status ;;
  status <- _report_status (stop ++ " " ++ task) status ;;
  ret (a, status).

Fixpoint run_phases (phases : list (string * string * string))
  (status : list string) : M (list string) :=
  match phases with
  | [] => ret status
  | (start, stop, task) :: phases' =>
      ' (_, status) <- report_status start stop task
                         (fun status => ret (tt, status)) status ;;
      run_phases phases' status
  end.

Definition real_create_account (request : NewAccountRequest.t)
  (status : list string) : M (list string) :=
  emit (Provision request) ;;
  run_phases (provisioner_phases request) status.

Definition create_account (request : NewAccountRequest.t)
  : M NewAccountResponse.t :=
  let status : list string := [] in
  ' (validation, status) <-
      report_status "Validating" "Validated" "account request"
        (fun status =>
           session <- get_session ;;
           validation <- validate_request request session ;;
           ret (validation, status)) status ;;
  let '(errors, warnings) := validation in
  (* the branches that return; None falls through to the creation *)
  ' (returned, status) <-
      (if truthy errors then
         ret (Some {| NewAccountResponse.status := NewAccountResponse.REJECTED;
                      NewAccountResponse.errors := errors ++ warnings |},
              status)
       else if truthy warnings then
         match NewAccountRequest.handle_warnings request with
         | WARNINGS_SUBMIT =>
             ' (response, status) <-
                 report_status "Submitting" "Submitted" "account for staff approval"
                   (fun status =>
                      let stored_request :=
                        StoredNewAccountRequest.from_request request in
                      session <- get_session ;;
                      let session := session_add session stored_request in
                      session_commit session ;;
                      dispatch_event "ocflib.account_submitted"
                        (dict_set (to_dict request) "reasons" (PyList warnings)) ;;
                      ret ({| NewAccountResponse.status := NewAccountResponse.PENDING;
                              NewAccountResponse.errors := warnings |},
                           status)) status ;;
             ret (Some response, status)
         | WARNINGS_WARN =>
             ret (Some {| NewAccountResponse.status := NewAccountResponse.FLAGGED;
                          NewAccountResponse.errors := warnings |},
                  status)
         | _ => ret (None, status)
         end
       else ret (None, status)) ;;
  match returned with
  | Some response => ret response
  | None =>
      real_create_account request status ;;
      dispatch_event "ocflib.account_created" (to_dict request) ;;
      ret {| NewAccountResponse.status := NewAccountResponse.CREATED;
             NewAccountResponse.errors := [] |}
  end.

Definition get_pending_requests : M (list Row) :=
  session <- get_session ;;
  query_all session.

(** Fetch stored request, then remove it. *)
Definition get_remove_row_by_user_name (user_name : string)
  : M NewAccountRequest.t :=
  session <- get_session ;;
  request_row <- query_filter_first session
                   (fun row => String.eqb (StoredNewAccountRequest.user_name row)
                                          user_name) ;;
  session <- lift (session_delete session request_row) ;;
  session_commit session ;;
  match request_row with
  | Some row => lift (StoredNewAccountRequest.to_request row None)
  | None => lift (Raise AttributeError)
  end.

Definition approve_request (user_name : string) : M unit :=
  request <- get_remove_row_by_user_name user_name ;;
  emit (TaskDelay request) ;;
  dispatch_event "ocflib.account_approved" (to_dict request).

Definition reject_request (user_name : string) : M unit :=
  request <- get_remove_row_by_user_name user_name ;;
  let reason := "TODO: come up with a reason" in
  send_rejected_mail request reason ;;
  dispatch_event "ocflib.account_rejected" (to_dict request).

End get_tasks.

(* ===================================================================== *)
(** ** Views of the log and of the table *)
(* ===================================================================== *)

Definition is_update_state (e : effect) : bool :=
  match e with
  | UpdateState _ => true
  | _ => false
  end.

(** The effects of a stretch of log other than progress reports: store
    writes, Provisioner calls, events, enqueued tasks and mails. *)
Definition actions (trace : list effect) : list effect :=
  filter (fun e => negb (is_update_state e)) trace.

Definition has_user_name (user_name : string) (row : Row) : bool :=
  String.eqb (StoredNewAccountRequest.user_name row) user_name.

(** The invariant of the table: every row has a primary key, no two rows
    share one, and no two rows share a [user_name]. *)
Definition table_ok (table : list Row) : Prop :=
  (forall row, In row table -> StoredNewAccountRequest.id row <> None)
  /\ NoDup (map StoredNewAccountRequest.id table)
  /\ NoDup (map StoredNewAccountRequest.user_name table).

(** A request with another [handle_warnings]. *)
Definition with_handle_warnings (request : NewAccountRequest.t)
  (mode : handle_warnings_mode) : NewAccountRequest.t :=
  {| NewAccountRequest.user_name := NewAccountRequest.user_name request;
     NewAccountRequest.real_name := NewAccountRequest.real_name request;
     NewAccountRequest.is_group := NewAccountRequest.is_group request;
     NewAccountRequest.calnet_uid := NewAccountRequest.calnet_uid request;
     NewAccountRequest.callink_oid := NewAccountRequest.callink_oid request;
     NewAccountRequest.email := NewAccountRequest.email request;
     NewAccountRequest.encrypted_password :=
       NewAccountRequest.encrypted_password request;
     NewAccountRequest.handle_warnings := mode |}.

(** [username_pending] called twice in a row on one session. *)
Definition username_pending_twice (session : Session)
  (request : NewAccountRequest.t) : M (bool * bool) :=
  first <- username_pending session request ;;
  second <- username_pending session request ;;
  ret (first, second).

(* ===================================================================== *)
(** ** Sample data *)
(* ===================================================================== *)

Module Sample.

Definition carol : NewAccountRequest.t :=
  {| NewAccountRequest.user_name := "carol";
     NewAccountRequest.real_name := "Carol Chen";
     NewAccountRequest.is_group := false;
     NewAccountRequest.calnet_uid := Some 999%Z;
     NewAccountRequest.callink_oid := Some 0%Z;
     NewAccountRequest.email := "carol@berkeley.edu";
     NewAccountRequest.encrypted_password := [x2a; x17];
     NewAccountRequest.handle_warnings := WARNINGS_SUBMIT |}.

Definition chess_club : NewAccountRequest.t :=
  {| NewAccountRequest.user_name := "chess";
     NewAccountRequest.real_name := "Chess Club";
     NewAccountRequest.is_group := true;
     NewAccountRequest.calnet_uid := None;
     NewAccountRequest.callink_oid := Some 46187%Z;
     NewAccountRequest.email := "chess@berkeley.edu";
     NewAccountRequest.encrypted_password := [x07];
     NewAccountRequest.handle_warnings := WARNINGS_WARN |}.

Definition bob : NewAccountRequest.t :=
  {| NewAccountRequest.user_name := "bob";
     NewAccountRequest.real_name := "Bob Bui";
     NewAccountRequest.is_group := false;
     NewAccountRequest.calnet_uid := Some 12345%Z;
     NewAccountRequest.callink_oid := Some 0%Z;
     NewAccountRequest.email := "bob@berkeley.edu";
     NewAccountRequest.encrypted_password := [x51; x02];
     NewAccountRequest.handle_warnings := WARNINGS_CREATE |}.

(** carol again, asking for creation despite warnings, and with a mode
    that is none of the three constants. *)
Definition carol_create : NewAccountRequest.t :=
  with_handle_warnings carol WARNINGS_CREATE.

Definition carol_odd : NewAccountRequest.t :=
  with_handle_warnings carol (WARNINGS_other "force").

(** A table that already holds carol's request, and the empty one. *)
Definition carol_row : Row :=
  with_id (StoredNewAccountRequest.from_request carol) 1%Z.

Definition carol_pending : World := {| rows := [carol_row]; log := [] |}.
Definition nothing_pending : World := {| rows := []; log := [] |}.

(** A validator in the manner of the real one: a pending username is an
    error, a pending request of the same person is a warning. *)
Definition validator (request : NewAccountRequest.t) (table : list Row)
  : list string * list string :=
  ((if existsb (has_user_name (NewAccountRequest.user_name request)) table
    then ["Username has already been requested."] else []),
   (if existsb (fun row => sql_eq_int (StoredNewAccountRequest.calnet_uid row)
                                      (NewAccountRequest.calnet_uid request)) table
    then ["CalNet UID already has a pending request."] else [])).

(** A validator that never finds an error and always has one warning. *)
Definition wary_validator (request : NewAccountRequest.t) (table : list Row)
  : list string * list string :=
  ([], ["Real name looks odd."]).

(** A validator that finds nothing at all. *)
Definition silent_validator (request : NewAccountRequest.t)
  (table : list Row) : list string * list string :=
  ([], []).

Definition provisioner_phases (request : NewAccountRequest.t)
  : list (string * string * string) :=
  [("Creating", "Created", "Kerberos keytab");
   ("Creating", "Created", "home and web directories")].

Definition to_dict (request : NewAccountRequest.t) : dict :=
  [("user_name", PyStr (NewAccountRequest.user_name request));
   ("real_name", PyStr (NewAccountRequest.real_name request));
   ("is_group", PyBool (NewAccountRequest.is_group request));
   ("calnet_uid",
    StoredNewAccountRequest.int_or_none (NewAccountRequest.calnet_uid request));
   ("callink_oid",
    StoredNewAccountRequest.int_or_none (NewAccountRequest.callink_oid request));
   ("email", PyStr (NewAccountRequest.email request));
   ("handle_warnings", PyMode (NewAccountRequest.handle_warnings request))].

(** carol with a university ID that no [Integer] column holds. *)
Definition carol_oversized : NewAccountRequest.t :=
  {| NewAccountRequest.user_name := "carol";
     NewAccountRequest.real_name := "Carol Chen";
     NewAccountRequest.is_group := false;
     NewAccountRequest.calnet_uid := Some 9223372036854775808%Z;
     NewAccountRequest.callink_oid := Some 0%Z;
     NewAccountRequest.email := "carol@berkeley.edu";
     NewAccountRequest.encrypted_password := [x2a; x17];
     NewAccountRequest.handle_warnings := WARNINGS_SUBMIT |}.

(** A session as [get_session] returns it, and the world after carol's
    request has been submitted for review on the empty table. *)
Definition fresh_session : Session :=
  {| session_new := []; session_deleted := [] |}.

Definition carol_submitted : World :=
  snd (create_account wary_validator provisioner_phases to_dict carol
         nothing_pending).

End Sample.

(** The fields a stored row shares with a request. *)
Definition fields_match (row : Row) (request : NewAccountRequest.t) : Prop :=
  StoredNewAccountRequest.user_name row = NewAccountRequest.user_name request
  /\ StoredNewAccountRequest.real_name row = NewAccountRequest.real_name request
  /\ StoredNewAccountRequest.is_group row = NewAccountRequest.is_group request
  /\ StoredNewAccountRequest.calnet_uid row = NewAccountRequest.calnet_uid request
  /\ StoredNewAccountRequest.callink_oid row = NewAccountRequest.callink_oid request
  /\ StoredNewAccountRequest.email row = NewAccountRequest.email request
  /\ StoredNewAccountRequest.encrypted_password row
     = NewAccountRequest.encrypted_password request.

(** The progress states reported in a stretch of log, in order. *)
Definition progress (trace : list effect) : list (list string) :=
  flat_map (fun e => match e with
                     | UpdateState status => [status]
                     | _ => []
                     end) trace.

(** Each report is the one before it with one more line at the end;
    [status] is the list before the first report. *)
Fixpoint grows_by_one_line (status : list string)
  (reports : list (list string)) : Prop :=
  match reports with
  | [] => True
  | report :: reports' =>
      (exists line, report = status ++ [line])
      /\ grows_by_one_line report reports'
  end.

(** The two reports every run of [create_account] starts with. *)
Definition validating : list effect :=
  [UpdateState ["Validating account request"];
   UpdateState ["Validating account request"; "Validated account request"]].

(** A row as it is before its insertion: without primary key. *)
Definition without_id (row : Row) : Row :=
  {| StoredNewAccountRequest.id := None;
     StoredNewAccountRequest.user_name := StoredNewAccountRequest.user_name row;
     StoredNewAccountRequest.real_name := StoredNewAccountRequest.real_name row;
     StoredNewAccountRequest.is_group := StoredNewAccountRequest.is_group row;
     StoredNewAccountRequest.calnet_uid := StoredNewAccountRequest.calnet_uid row;
     StoredNewAccountRequest.callink_oid := StoredNewAccountRequest.callink_oid row;
     StoredNewAccountRequest.email := StoredNewAccountRequest.email row;
     StoredNewAccountRequest.encrypted_password :=
       StoredNewAccountRequest.encrypted_password row |}.

(* ===================================================================== *)
(** ** Properties of create_account *)
(* ===================================================================== *)

Section create_account_properties.

Variable validator :
  NewAccountRequest.t -> list Row -> list string * list string.
Variable provisioner_phases :
  NewAccountRequest.t -> list (string * string * string).
Variable to_dict : NewAccountRequest.t -> dict.

Lemma actions_app :
  forall t1 t2, actions (t1 ++ t2) = actions t1 ++ actions t2.
Proof. intros. unfold actions. apply filter_app. Qed.

(** The Provisioner's use of the progress callback only reports states. *)
Lemma run_phases_progress_only :
  forall phases status w,
  exists status' trace,
    run_phases phases status w =
      (Ok status', {| rows := rows w; log := log w ++ trace |})
    /\ actions trace = [].
Proof.
  induction phases as [| [[start stop] task] phases IH]; intros status w.
  - exists status, []. split; [| reflexivity].
    cbn. rewrite app_nil_r. destruct w; reflexivity.
  - cbn [run_phases].
    unfold report_status, _report_status, bind, emit, ret. cbn [rows log].
    match goal with |- context [run_phases phases ?s ?w0] =>
      destruct (IH s w0) as (status' & trace & Hrun & Hact) end.
    cbn [rows log] in Hrun.
    eexists status', (_ :: _ :: trace). split.
    + rewrite Hrun. rewrite <- !app_assoc. reflexivity.
    + cbn. exact Hact.
Qed.

(** Without errors, and with no warnings or a mode that is neither SUBMIT
    nor WARN, the request goes to the Provisioner. *)
Lemma create_account_creates :
  forall request w warnings,
    validator request (rows w) = ([], warnings) ->
    warnings = [] \/
    (NewAccountRequest.handle_warnings request <> WARNINGS_SUBMIT /\
     NewAccountRequest.handle_warnings request <> WARNINGS_WARN) ->
    exists trace,
      create_account validator provisioner_phases to_dict request w =
        (Ok {| NewAccountResponse.status := NewAccountResponse.CREATED;
               NewAccountResponse.errors := [] |},
         {| rows := rows w; log := log w ++ trace |})
      /\ actions trace =
           [Provision request;
            DispatchEvent "ocflib.account_created" (to_dict request)].
Proof.
  intros request w warnings Hv Hmode.
  assert (Hfall :
    (if truthy warnings then
       match NewAccountRequest.handle_warnings request with
       | WARNINGS_SUBMIT => false
       | WARNINGS_WARN => false
       | _ => true
       end
     else true) = true).
  { destruct Hmode as [-> | [Hs Hw]]; [reflexivity |].
    destruct (truthy warnings); [| reflexivity].
    destruct (NewAccountRequest.handle_warnings request); congruence. }
  unfold create_account, report_status,
    _report_status, validate_request, get_session, real_create_account,
    dispatch_event, bind, emit, ret.
  cbn [rows log]. rewrite Hv. cbn [truthy app].
  destruct (truthy warnings);
    [destruct (NewAccountRequest.handle_warnings request);
     try discriminate Hfall |];
    cbn [rows log];
    match goal with |- context [run_phases _ ?s ?w0] =>
      destruct (run_phases_progress_only (provisioner_phases request) s w0)
        as (status' & trace & Hrun & Hact) end;
    cbn [rows log] in Hrun; rewrite Hrun; cbn [rows log];
    (exists ([UpdateState ["Validating account request"];
              UpdateState ["Validating account request";
                           "Validated account request"];
              Provision request] ++ trace ++
             [DispatchEvent "ocflib.account_created" (to_dict request)]));
    (split;
     [rewrite <- !app_assoc; reflexivity
     | rewrite !actions_app, Hact; reflexivity]).
Qed.

Lemma user_name_free :
  forall (table : list Row) request,
    (forall row, In row table ->
       StoredNewAccountRequest.user_name row
       <> NewAccountRequest.user_name request) ->
    existsb (same_user_name (StoredNewAccountRequest.from_request request))
            table = false.
Proof.
  intros table request Hfree.
  destruct (existsb _ table) eqn:E; [| reflexivity].
  apply existsb_exists in E. destruct E as (row & Hin & Hsame).
  unfold same_user_name in Hsame. cbn in Hsame.
  apply String.eqb_eq in Hsame. exfalso. exact (Hfree row Hin Hsame).
Qed.

(** C1.  When the Validator reports at least one error, [create_account]
    returns REJECTED with the errors followed by the warnings, whatever the
    request's [handle_warnings]; the table is untouched and the task's only
    effects are its two progress reports: no store write, no Provisioner
    call. *)
Theorem create_account_rejected :
  forall request w errors warnings,
    validator request (rows w) = (errors, warnings) ->
    errors <> [] ->
    let trace := [UpdateState ["Validating account request"];
                  UpdateState ["Validating account request";
                               "Validated account request"]] in
    create_account validator provisioner_phases to_dict request w =
      (Ok {| NewAccountResponse.status := NewAccountResponse.REJECTED;
             NewAccountResponse.errors := errors ++ warnings |},
       {| rows := rows w; log := log w ++ trace |})
    /\ actions trace = [].
Proof.
  intros request w errors warnings Hv Herr trace. split; [| reflexivity].
  unfold create_account, report_status,
    _report_status, validate_request, get_session, bind, emit, ret.
  cbn [rows log]. rewrite Hv.
  destruct errors as [| e errors]; [congruence |].
  cbn. rewrite <- app_assoc. reflexivity.
Qed.

(** C2 (amended).  With no errors, some warnings and mode SUBMIT, when no
    stored row already has the request's username and the row to insert
    fits the declared columns, [create_account] inserts exactly one row,
    whose fields match the request, publishes exactly one
    [account_submitted] event carrying the request with the warnings as
    reasons, and returns PENDING with the warnings. *)
Theorem create_account_submitted :
  forall request w warnings,
    validator request (rows w) = ([], warnings) ->
    warnings <> [] ->
    NewAccountRequest.handle_warnings request = WARNINGS_SUBMIT ->
    (forall row, In row (rows w) ->
       StoredNewAccountRequest.user_name row
       <> NewAccountRequest.user_name request) ->
    fits_columns (with_id (StoredNewAccountRequest.from_request request)
                          (next_id (rows w))) = true ->
    let stored :=
      with_id (StoredNewAccountRequest.from_request request)
              (next_id (rows w)) in
    let event :=
      DispatchEvent "ocflib.account_submitted"
        (dict_set (to_dict request) "reasons" (PyList warnings)) in
    let validating := ["Validating account request";
                       "Validated account request"] in
    let trace :=
      [UpdateState ["Validating account request"];
       UpdateState validating;
       UpdateState (validating ++ ["Submitting account for staff approval"]);
       SqlInsert stored;
       event;
       UpdateState (validating ++ ["Submitting account for staff approval";
                                   "Submitted account for staff approval"])] in
    create_account validator provisioner_phases to_dict request w =
      (Ok {| NewAccountResponse.status := NewAccountResponse.PENDING;
             NewAccountResponse.errors := warnings |},
       {| rows := rows w ++ [stored]; log := log w ++ trace |})
    /\ actions trace = [SqlInsert stored; event]
    /\ fields_match stored request.
Proof.
  intros request w warnings Hv Hwarn Hmode Hfree Hfits stored event validating
    trace.
  split; [| split; [reflexivity | repeat split]].
  unfold create_account, report_status,
    _report_status, validate_request, get_session, session_add,
    session_commit, dispatch_event, bind, emit, ret.
  cbn [rows log]. rewrite Hv, Hmode.
  destruct warnings as [| warning warnings]; [congruence |].
  cbn [truthy app session_new session_deleted flush_new flush_deleted
       result_bind rows log].
  unfold sql_insert.
  change (assign_id (rows w) (StoredNewAccountRequest.from_request request))
    with (with_id (StoredNewAccountRequest.from_request request)
                  (next_id (rows w))).
  rewrite Hfits, (user_name_free _ _ Hfree).
  cbn. rewrite <- !app_assoc. reflexivity.
Qed.

(** C3.  With no errors, some warnings and mode WARN, [create_account]
    returns FLAGGED with the warnings; the table is untouched and the
    task's only effects are its two progress reports. *)
Theorem create_account_flagged :
  forall request w warnings,
    validator request (rows w) = ([], warnings) ->
    warnings <> [] ->
    NewAccountRequest.handle_warnings request = WARNINGS_WARN ->
    let trace := [UpdateState ["Validating account request"];
                  UpdateState ["Validating account request";
                               "Validated account request"]] in
    create_account validator provisioner_phases to_dict request w =
      (Ok {| NewAccountResponse.status := NewAccountResponse.FLAGGED;
             NewAccountResponse.errors := warnings |},
       {| rows := rows w; log := log w ++ trace |})
    /\ actions trace = [].
Proof.
  intros request w warnings Hv Hwarn Hmode trace. split; [| reflexivity].
  unfold create_account, report_status,
    _report_status, validate_request, get_session, bind, emit, ret.
  cbn [rows log]. rewrite Hv, Hmode.
  destruct warnings as [| warning warnings]; [congruence |].
  cbn. rewrite <- app_assoc. reflexivity.
Qed.

(** C4.  With no errors, and either no warnings or mode CREATE,
    [create_account] returns CREATED with an empty error list; apart from
    progress reports its effects are exactly one call of the Provisioner
    followed by exactly one [account_created] event, and the table is
    untouched.  Warnings do not block creation under CREATE. *)
Theorem create_account_created :
  forall request w warnings,
    validator request (rows w) = ([], warnings) ->
    warnings = [] \/
    NewAccountRequest.handle_warnings request = WARNINGS_CREATE ->
    exists trace,
      create_account validator provisioner_phases to_dict request w =
        (Ok {| NewAccountResponse.status := NewAccountResponse.CREATED;
               NewAccountResponse.errors := [] |},
         {| rows := rows w; log := log w ++ trace |})
      /\ actions trace =
           [Provision request;
            DispatchEvent "ocflib.account_created" (to_dict request)].
Proof.
  intros request w warnings Hv Hcase.
  apply (create_account_creates request w warnings Hv).
  destruct Hcase as [Hnone | Hmode]; [left; exact Hnone | right].
  rewrite Hmode. split; discriminate.
Qed.

(** C10.  With no errors, some warnings and a mode that is neither SUBMIT
    nor WARN (CREATE or any other value), [create_account] does what it
    does under CREATE: one Provisioner call, one [account_created] event,
    CREATED with an empty error list, and no store write. *)
Theorem create_account_other_mode_creates :
  forall request w warnings,
    validator request (rows w) = ([], warnings) ->
    warnings <> [] ->
    NewAccountRequest.handle_warnings request <> WARNINGS_SUBMIT ->
    NewAccountRequest.handle_warnings request <> WARNINGS_WARN ->
    exists trace,
      create_account validator provisioner_phases to_dict request w =
        (Ok {| NewAccountResponse.status := NewAccountResponse.CREATED;
               NewAccountResponse.errors := [] |},
         {| rows := rows w; log := log w ++ trace |})
      /\ actions trace =
           [Provision request;
            DispatchEvent "ocflib.account_created" (to_dict request)].
Proof.
  intros request w warnings Hv _ Hsubmit Hwarn.
  apply (create_account_creates request w warnings Hv).
  right. split; assumption.
Qed.

End create_account_properties.

(* ===================================================================== *)
(** ** Properties of the table *)
(* ===================================================================== *)

Section table_properties.

Lemma map_injective_on_NoDup :
  forall (A B : Type) (f : A -> B) (l : list A) (a b : A),
    NoDup (map f l) -> In a l -> In b l -> f a = f b -> a = b.
Proof.
  intros A B f l a b. induction l as [| x l IH]; intros Hnd Ha Hb Hf.
  - destruct Ha.
  - cbn in Hnd. inversion Hnd as [| y ys Hnotin Hnd']; subst.
    destruct Ha as [-> | Ha], Hb as [-> | Hb].
    + reflexivity.
    + exfalso. apply Hnotin. rewrite Hf. apply in_map. exact Hb.
    + exfalso. apply Hnotin. rewrite <- Hf. apply in_map. exact Ha.
    + apply IH; assumption.
Qed.

Lemma find_none_iff_absent :
  forall user_name (table : list Row),
    (forall row, In row table ->
       StoredNewAccountRequest.user_name row <> user_name) ->
    find (has_user_name user_name) table = None.
Proof.
  intros user_name table Habsent.
  destruct (find (has_user_name user_name) table) as [row |] eqn:E;
    [| reflexivity].
  apply find_some in E. destruct E as [Hin Hname].
  apply String.eqb_eq in Hname. exfalso. exact (Habsent row Hin Hname).
Qed.

Lemma find_the_row :
  forall user_name (table : list Row) row,
    NoDup (map StoredNewAccountRequest.user_name table) ->
    In row table ->
    StoredNewAccountRequest.user_name row = user_name ->
    find (has_user_name user_name) table = Some row.
Proof.
  intros user_name table row Hnd Hin Hname.
  destruct (find (has_user_name user_name) table) as [row' |] eqn:E.
  - apply find_some in E. destruct E as [Hin' Hname'].
    apply String.eqb_eq in Hname'. f_equal.
    apply (map_injective_on_NoDup _ _ StoredNewAccountRequest.user_name table);
      first [assumption | congruence].
  - exfalso. apply (find_none _ _ E) in Hin.
    unfold has_user_name in Hin. rewrite Hname, String.eqb_refl in Hin.
    discriminate.
Qed.

Lemma same_id_iff :
  forall (table : list Row) row row',
    table_ok table -> In row table -> In row' table ->
    (same_id row row' = true <-> row' = row).
Proof.
  intros table row row' (Hid & Hnd & _) Hin Hin'. unfold same_id, pk_eqb.
  pose proof (Hid row Hin) as Hrow. pose proof (Hid row' Hin') as Hrow'.
  destruct (StoredNewAccountRequest.id row) as [n |] eqn:En; [| congruence].
  destruct (StoredNewAccountRequest.id row') as [n' |] eqn:En'; [| congruence].
  split.
  - intro Heq. apply Z.eqb_eq in Heq.
    apply (map_injective_on_NoDup _ _ StoredNewAccountRequest.id table);
      first [assumption | congruence].
  - intros ->. assert (n' = n) by congruence. subst. apply Z.eqb_refl.
Qed.

(** Deleting a row by its primary key removes that row and no other. *)
Lemma delete_removes_exactly :
  forall (table : list Row) row,
    table_ok table -> In row table ->
    forall row',
      In row' (filter (fun row' => negb (same_id row row')) table)
      <-> In row' table /\ row' <> row.
Proof.
  intros table row Hok Hin row'. rewrite filter_In. split.
  - intros [Hin' Hne]. split; [exact Hin' |]. intros ->.
    apply negb_true_iff in Hne.
    assert (same_id row row = true) as E
      by (apply (same_id_iff table); auto).
    congruence.
  - intros [Hin' Hne]. split; [exact Hin' |].
    apply negb_true_iff. destruct (same_id row row') eqn:E; [| reflexivity].
    exfalso. apply Hne. apply (same_id_iff table row row'); assumption.
Qed.

(** After that deletion no row has the deleted row's username. *)
Lemma delete_frees_user_name :
  forall (table : list Row) row,
    table_ok table -> In row table ->
    forall row',
      In row' (filter (fun row' => negb (same_id row row')) table) ->
      StoredNewAccountRequest.user_name row'
      <> StoredNewAccountRequest.user_name row.
Proof.
  intros table row Hok Hin row' Hin' Hname.
  apply (delete_removes_exactly table row Hok Hin) in Hin'.
  destruct Hin' as [Hin' Hne]. apply Hne.
  destruct Hok as (_ & _ & Hnd).
  apply (map_injective_on_NoDup _ _ StoredNewAccountRequest.user_name table);
    assumption.
Qed.

Lemma next_id_above :
  forall (table : list Row) row n,
    In row table -> StoredNewAccountRequest.id row = Some n ->
    (n < next_id table)%Z.
Proof.
  unfold next_id. induction table as [| row' table IH]; intros row n Hin Hid.
  - destruct Hin.
  - cbn [fold_right]. destruct Hin as [-> | Hin].
    + rewrite Hid. lia.
    + specialize (IH row n Hin Hid).
      destruct (StoredNewAccountRequest.id row'); lia.
Qed.

(** The invariant holds of the empty table and every accepted INSERT
    keeps it. *)
Lemma table_ok_nil : table_ok [].
Proof. repeat split; cbn; try constructor. intros row []. Qed.

Lemma sql_insert_keeps_table_ok :
  forall (table : list Row) row row',
    table_ok table -> sql_insert table row = Ok row' ->
    table_ok (table ++ [row']).
Proof.
  intros table row row' (Hid & Hnd & Hnames) Hins. unfold sql_insert in Hins.
  destruct (negb (fits_columns (assign_id table row))); [discriminate |].
  destruct (existsb (same_user_name row) table) eqn:Ename; [discriminate |].
  assert (Hname' : StoredNewAccountRequest.user_name row'
                   = StoredNewAccountRequest.user_name row).
  { destruct (StoredNewAccountRequest.id row);
      [destruct (existsb (same_id row) table); [discriminate |] |];
      inversion Hins; reflexivity. }
  assert (Hfresh_name :
    ~ In (StoredNewAccountRequest.user_name row')
         (map StoredNewAccountRequest.user_name table)).
  { intro Hin. apply in_map_iff in Hin. destruct Hin as (r & Hr & Hin).
    assert (existsb (same_user_name row) table = true) as E; [| congruence].
    apply existsb_exists. exists r. split; [exact Hin |].
    unfold same_user_name. rewrite Hr, Hname'. apply String.eqb_refl. }
  assert (Hfresh_id :
    StoredNewAccountRequest.id row' <> None /\
    ~ In (StoredNewAccountRequest.id row')
         (map StoredNewAccountRequest.id table)).
  { destruct (StoredNewAccountRequest.id row) as [n |] eqn:En.
    - destruct (existsb (same_id row) table) eqn:Eid; [discriminate |].
      inversion Hins; subst row'. rewrite En. split; [discriminate |].
      intro Hin. apply in_map_iff in Hin. destruct Hin as (r & Hr & Hin).
      assert (existsb (same_id row) table = true) as E; [| congruence].
      apply existsb_exists. exists r. split; [exact Hin |].
      unfold same_id. rewrite Hr, En. cbn. apply Z.eqb_refl.
    - inversion Hins; subst row'.
      unfold with_id; cbn [StoredNewAccountRequest.id].
      split; [discriminate |].
      intro Hin. apply in_map_iff in Hin. destruct Hin as (r & Hr & Hin).
      pose proof (next_id_above table r _ Hin Hr). lia. }
  destruct Hfresh_id as [Hsome Hfresh_id].
  repeat split.
  - intros r Hin. apply in_app_or in Hin. destruct Hin as [Hin | [<- | []]].
    + apply Hid; exact Hin.
    + exact Hsome.
  - rewrite map_app. apply NoDup_app; [exact Hnd | repeat constructor; intros [] |].
    intros a Ha [<- | []]. exact (Hfresh_id Ha).
  - rewrite map_app. apply NoDup_app; [exact Hnames | repeat constructor; intros [] |].
    intros a Ha [<- | []]. exact (Hfresh_name Ha).
Qed.

End table_properties.

(* ===================================================================== *)
(** ** Properties of the stored row and of the dedup queries *)
(* ===================================================================== *)

Section stored_request_properties.

(** A row always converts to a request, field by field. *)
Lemma to_request_total :
  forall (row : Row) mode,
  exists request,
    StoredNewAccountRequest.to_request row mode = Ok request
    /\ fields_match row request
    /\ NewAccountRequest.handle_warnings request
       = match mode with Some m => m | None => WARNINGS_CREATE end.
Proof.
  intros [id user_name real_name is_group calnet_uid callink_oid email
          encrypted_password] mode.
  eexists. split.
  - destruct calnet_uid, callink_oid; reflexivity.
  - destruct mode; repeat split.
Qed.

(** C7.  A request converted to a stored row with [from_request] and back
    with [to_request] comes back with the same username, real name,
    is-group flag, university-identity ID, organization-identity ID, email
    and encrypted password; its [handle_warnings] is the mode passed to
    [to_request], and CREATE when none is passed. *)
Theorem from_request_to_request :
  forall request,
    StoredNewAccountRequest.to_request
      (StoredNewAccountRequest.from_request request) None
    = Ok (with_handle_warnings request WARNINGS_CREATE)
    /\ forall mode,
         StoredNewAccountRequest.to_request
           (StoredNewAccountRequest.from_request request) (Some mode)
         = Ok (with_handle_warnings request mode).
Proof.
  intros [user_name real_name is_group calnet_uid callink_oid email
          encrypted_password handle_warnings].
  split; [| intro mode]; destruct calnet_uid, callink_oid; reflexivity.
Qed.

Lemma sql_eq_int_iff :
  forall column value, sql_eq_int column value = true <-> column = value.
Proof.
  intros [c |] [v |]; cbn; split; try congruence.
  - intro H. apply Z.eqb_eq in H. congruence.
  - intro H. inversion H. apply Z.eqb_refl.
Qed.

(** C8.  [user_has_request_pending] leaves the world as it is and answers:
    for a group request whose organization-identity ID is not zero, whether
    some stored row shares that ID; for an individual request, whether some
    stored row shares the university-identity ID; for a group request with
    organization-identity ID zero, False whatever the table holds. *)
Theorem user_has_request_pending_spec :
  forall session request w,
  exists pending,
    user_has_request_pending session request w = (Ok pending, w)
    /\ (NewAccountRequest.is_group request = true ->
        NewAccountRequest.callink_oid request <> Some 0%Z ->
        (pending = true <->
         exists row, In row (rows w) /\
           StoredNewAccountRequest.callink_oid row
           = NewAccountRequest.callink_oid request))
    /\ (NewAccountRequest.is_group request = false ->
        (pending = true <->
         exists row, In row (rows w) /\
           StoredNewAccountRequest.calnet_uid row
           = NewAccountRequest.calnet_uid request))
    /\ (NewAccountRequest.is_group request = true ->
        NewAccountRequest.callink_oid request = Some 0%Z ->
        pending = false).
Proof.
  intros session request w. unfold user_has_request_pending, query_exists, ret.
  destruct (NewAccountRequest.is_group request) eqn:Egroup; cbn [andb negb].
  - destruct (py_ne_zero (NewAccountRequest.callink_oid request)) eqn:Ezero.
    + eexists; split; [reflexivity |]. split; [| split].
      * intros _ _. rewrite existsb_exists.
        split; intros (row & Hin & Heq); exists row; split; auto;
          apply sql_eq_int_iff; exact Heq.
      * discriminate.
      * intros _ Hoid. rewrite Hoid in Ezero. discriminate.
    + eexists; split; [reflexivity |]. split; [| split].
      * intros _ Hoid. exfalso. apply Hoid.
        destruct (NewAccountRequest.callink_oid request) as [z |];
          [| discriminate].
        cbn in Ezero. apply negb_false_iff, Z.eqb_eq in Ezero. congruence.
      * discriminate.
      * reflexivity.
  - eexists; split; [reflexivity |]. split; [| split].
    + discriminate.
    + intros _. rewrite existsb_exists.
      split; intros (row & Hin & Heq); exists row; split; auto;
        apply sql_eq_int_iff; exact Heq.
    + discriminate.
Qed.

(** C9.  [username_pending] is a read: it returns whether some stored row
    has the request's username and leaves the world, table included, as it
    found it; called twice in a row it gives the same answer twice, and so
    does any later call on a table with the same rows. *)
Theorem username_pending_read_only :
  forall session request w,
    let pending :=
      existsb (has_user_name (NewAccountRequest.user_name request)) (rows w) in
    username_pending session request w = (Ok pending, w)
    /\ username_pending_twice session request w = (Ok (pending, pending), w)
    /\ forall session' w',
         rows w' = rows w ->
         username_pending session' request w' = (Ok pending, w').
Proof.
  intros session request w pending. split; [| split]; try reflexivity.
  intros session' w' Hrows. unfold username_pending, query_exists, pending.
  rewrite Hrows. reflexivity.
Qed.

End stored_request_properties.

(* ===================================================================== *)
(** ** Properties of approve_request and reject_request *)
(* ===================================================================== *)

Section decision_properties.

Variable to_dict : NewAccountRequest.t -> dict.

Lemma get_remove_row_absent :
  forall user_name w,
    (forall row, In row (rows w) ->
       StoredNewAccountRequest.user_name row <> user_name) ->
    get_remove_row_by_user_name user_name w = (Raise UnmappedInstanceError, w).
Proof.
  intros user_name w Habsent.
  unfold get_remove_row_by_user_name, get_session, query_filter_first,
    bind, ret, lift.
  change (fun row : Row =>
            String.eqb (StoredNewAccountRequest.user_name row) user_name)
    with (has_user_name user_name).
  rewrite (find_none_iff_absent user_name (rows w) Habsent). reflexivity.
Qed.

Lemma get_remove_row_present :
  forall user_name row w,
    NoDup (map StoredNewAccountRequest.user_name (rows w)) ->
    In row (rows w) ->
    StoredNewAccountRequest.user_name row = user_name ->
    exists request,
      StoredNewAccountRequest.to_request row None = Ok request
      /\ get_remove_row_by_user_name user_name w =
           (Ok request,
            {| rows := filter (fun row' => negb (same_id row row')) (rows w);
               log := log w ++ [SqlDelete row] |}).
Proof.
  intros user_name row w Hnd Hin Hname.
  destruct (to_request_total row None) as (request & Hreq & _).
  exists request. split; [exact Hreq |].
  unfold get_remove_row_by_user_name, get_session, query_filter_first,
    bind, ret, lift.
  change (fun row : Row =>
            String.eqb (StoredNewAccountRequest.user_name row) user_name)
    with (has_user_name user_name).
  rewrite (find_the_row user_name (rows w) row Hnd Hin Hname).
  cbn -[StoredNewAccountRequest.to_request]. rewrite Hreq. reflexivity.
Qed.

Lemma decisions_fail_without_row :
  forall user_name w,
    (forall row, In row (rows w) ->
       StoredNewAccountRequest.user_name row <> user_name) ->
    approve_request to_dict user_name w = (Raise UnmappedInstanceError, w)
    /\ reject_request to_dict user_name w = (Raise UnmappedInstanceError, w).
Proof.
  intros user_name w Habsent.
  unfold approve_request, reject_request, bind.
  rewrite (get_remove_row_absent user_name w Habsent). split; reflexivity.
Qed.

(** C5.  When no stored row has the username, [approve_request] and
    [reject_request] fail: [session.delete] refuses the missing row, the
    exception ends the task, and the world - table and log - is exactly as
    before: nothing deleted, nothing enqueued, no mail, no event. *)
Theorem decision_without_row_fails :
  forall user_name w,
    (forall row, In row (rows w) ->
       StoredNewAccountRequest.user_name row <> user_name) ->
    approve_request to_dict user_name w = (Raise UnmappedInstanceError, w)
    /\ reject_request to_dict user_name w = (Raise UnmappedInstanceError, w).
Proof.
  intros user_name w Habsent.
  exact (decisions_fail_without_row user_name w Habsent).
Qed.

(** C6.  When a stored row has the username, [approve_request] and
    [reject_request] delete it in the session that read it, and the DELETE
    is committed before anything else happens: it is the first effect of
    the task, ahead of the re-enqueued [create_account] or the rejection
    mail and of the event.  The deletion removes that row and no other, so
    a later decision on the same username finds no row and fails without
    any effect. *)
Theorem decision_deletes_then_acts :
  forall user_name row w,
    table_ok (rows w) ->
    In row (rows w) ->
    StoredNewAccountRequest.user_name row = user_name ->
    let remaining := filter (fun row' => negb (same_id row row')) (rows w) in
    exists request,
      StoredNewAccountRequest.to_request row None = Ok request
      /\ approve_request to_dict user_name w =
           (Ok tt,
            {| rows := remaining;
               log := log w ++
                      [SqlDelete row;
                       TaskDelay request;
                       DispatchEvent "ocflib.account_approved"
                                     (to_dict request)] |})
      /\ reject_request to_dict user_name w =
           (Ok tt,
            {| rows := remaining;
               log := log w ++
                      [SqlDelete row;
                       RejectedMail request "TODO: come up with a reason";
                       DispatchEvent "ocflib.account_rejected"
                                     (to_dict request)] |})
      /\ (forall row', In row' remaining <-> In row' (rows w) /\ row' <> row)
      /\ (forall w', rows w' = remaining ->
            approve_request to_dict user_name w'
            = (Raise UnmappedInstanceError, w')
            /\ reject_request to_dict user_name w'
               = (Raise UnmappedInstanceError, w')).
Proof.
  intros user_name row w Hok Hin Hname remaining.
  pose proof Hok as (_ & _ & Hnd).
  destruct (get_remove_row_present user_name row w Hnd Hin Hname)
    as (request & Hreq & Hrun).
  exists request. split; [exact Hreq |].
  split; [| split; [| split]].
  - unfold approve_request, dispatch_event, bind, emit. rewrite Hrun.
    cbn [rows log]. rewrite <- !app_assoc. reflexivity.
  - unfold reject_request, send_rejected_mail, dispatch_event, bind, emit.
    rewrite Hrun. cbn [rows log]. rewrite <- !app_assoc. reflexivity.
  - apply delete_removes_exactly; assumption.
  - intros w' Hrows. apply decisions_fail_without_row.
    intros row' Hin'. rewrite Hrows in Hin'. rewrite <- Hname.
    apply (delete_frees_user_name (rows w) row Hok Hin row' Hin').
Qed.

End decision_properties.

(* ===================================================================== *)
(** ** The properties on the sample data *)
(* ===================================================================== *)

Lemma carol_pending_ok : table_ok (rows Sample.carol_pending).
Proof.
  repeat split; cbn.
  - intros row [<- | []]. discriminate.
  - repeat constructor. intros [].
  - repeat constructor. intros [].
Defined.

Lemma create_account_rejected_witness :
  Sample.validator Sample.carol (rows Sample.carol_pending)
  = (["Username has already been requested."],
     ["CalNet UID already has a pending request."])
  /\ create_account Sample.validator Sample.provisioner_phases Sample.to_dict
       Sample.carol Sample.carol_pending
     = (Ok {| NewAccountResponse.status := NewAccountResponse.REJECTED;
              NewAccountResponse.errors :=
                ["Username has already been requested.";
                 "CalNet UID already has a pending request."] |},
        {| rows := [Sample.carol_row];
           log := [UpdateState ["Validating account request"];
                   UpdateState ["Validating account request";
                                "Validated account request"]] |}).
Proof.
  split; [reflexivity |].
  apply (create_account_rejected Sample.validator Sample.provisioner_phases
           Sample.to_dict Sample.carol Sample.carol_pending
           ["Username has already been requested."]
           ["CalNet UID already has a pending request."]);
    [reflexivity | discriminate].
Defined.

Lemma create_account_submitted_witness :
  Sample.wary_validator Sample.carol (rows Sample.nothing_pending)
  = ([], ["Real name looks odd."])
  /\ NewAccountRequest.handle_warnings Sample.carol = WARNINGS_SUBMIT
  /\ create_account Sample.wary_validator Sample.provisioner_phases
       Sample.to_dict Sample.carol Sample.nothing_pending
     = (Ok {| NewAccountResponse.status := NewAccountResponse.PENDING;
              NewAccountResponse.errors := ["Real name looks odd."] |},
        {| rows := [Sample.carol_row];
           log :=
             [UpdateState ["Validating account request"];
              UpdateState ["Validating account request";
                           "Validated account request"];
              UpdateState ["Validating account request";
                           "Validated account request";
                           "Submitting account for staff approval"];
              SqlInsert Sample.carol_row;
              DispatchEvent "ocflib.account_submitted"
                (Sample.to_dict Sample.carol
                 ++ [("reasons", PyList ["Real name looks odd."])]);
              UpdateState ["Validating account request";
                           "Validated account request";
                           "Submitting account for staff approval";
                           "Submitted account for staff approval"]] |}).
Proof.
  split; [reflexivity | split; [reflexivity |]].
  apply (create_account_submitted Sample.wary_validator
           Sample.provisioner_phases Sample.to_dict Sample.carol
           Sample.nothing_pending ["Real name looks odd."]);
    [reflexivity | discriminate | reflexivity | intros row [] | reflexivity].
Defined.

(** C2, as stated, fails when the table already holds a row with the
    request's username: the Validator here reports no error and one warning,
    the mode is SUBMIT, yet the INSERT is refused by the unique [user_name],
    the task ends with IntegrityError after its third progress report, and
    there is no new row, no event and no response. *)
Lemma create_account_submit_duplicate_user_name :
  Sample.wary_validator Sample.carol (rows Sample.carol_pending)
  = ([], ["Real name looks odd."])
  /\ NewAccountRequest.handle_warnings Sample.carol = WARNINGS_SUBMIT
  /\ create_account Sample.wary_validator Sample.provisioner_phases
       Sample.to_dict Sample.carol Sample.carol_pending
     = (Raise IntegrityError,
        {| rows := [Sample.carol_row];
           log :=
             [UpdateState ["Validating account request"];
              UpdateState ["Validating account request";
                           "Validated account request"];
              UpdateState ["Validating account request";
                           "Validated account request";
                           "Submitting account for staff approval"]] |})
  /\ forall response w',
       create_account Sample.wary_validator Sample.provisioner_phases
         Sample.to_dict Sample.carol Sample.carol_pending
       <> (Ok response, w').
Proof.
  split; [reflexivity | split; [reflexivity | split; [reflexivity |]]].
  intros response w'. discriminate.
Qed.

(** The other refusal of the INSERT: a value that does not fit its column.
    The username is free, the Validator reports no error and one warning,
    the mode is SUBMIT, and the task ends with an exception; nothing is
    stored, published or returned. *)
Example create_account_submit_oversized :
  create_account Sample.wary_validator Sample.provisioner_phases
    Sample.to_dict Sample.carol_oversized Sample.nothing_pending
  = (Raise DataError,
     {| rows := [];
        log :=
          [UpdateState ["Validating account request"];
           UpdateState ["Validating account request";
                        "Validated account request"];
           UpdateState ["Validating account request";
                        "Validated account request";
                        "Submitting account for staff approval"]] |}).
Proof. reflexivity. Qed.

Lemma create_account_flagged_witness :
  Sample.wary_validator Sample.chess_club (rows Sample.carol_pending)
  = ([], ["Real name looks odd."])
  /\ NewAccountRequest.handle_warnings Sample.chess_club = WARNINGS_WARN
  /\ create_account Sample.wary_validator Sample.provisioner_phases
       Sample.to_dict Sample.chess_club Sample.carol_pending
     = (Ok {| NewAccountResponse.status := NewAccountResponse.FLAGGED;
              NewAccountResponse.errors := ["Real name looks odd."] |},
        {| rows := [Sample.carol_row];
           log := [UpdateState ["Validating account request"];
                   UpdateState ["Validating account request";
                                "Validated account request"]] |}).
Proof.
  split; [reflexivity | split; [reflexivity |]].
  apply (create_account_flagged Sample.wary_validator
           Sample.provisioner_phases Sample.to_dict Sample.chess_club
           Sample.carol_pending ["Real name looks odd."]);
    [reflexivity | discriminate | reflexivity].
Defined.

Lemma create_account_created_witness :
  Sample.wary_validator Sample.carol_create (rows Sample.nothing_pending)
  = ([], ["Real name looks odd."])
  /\ NewAccountRequest.handle_warnings Sample.carol_create = WARNINGS_CREATE
  /\ exists trace,
       create_account Sample.wary_validator Sample.provisioner_phases
         Sample.to_dict Sample.carol_create Sample.nothing_pending
       = (Ok {| NewAccountResponse.status := NewAccountResponse.CREATED;
                NewAccountResponse.errors := [] |},
          {| rows := []; log := [] ++ trace |})
       /\ actions trace
          = [Provision Sample.carol_create;
             DispatchEvent "ocflib.account_created"
                           (Sample.to_dict Sample.carol_create)].
Proof.
  split; [reflexivity | split; [reflexivity |]].
  apply (create_account_created Sample.wary_validator
           Sample.provisioner_phases Sample.to_dict Sample.carol_create
           Sample.nothing_pending ["Real name looks odd."]);
    [reflexivity | right; reflexivity].
Defined.

Lemma create_account_other_mode_creates_witness :
  Sample.wary_validator Sample.carol_odd (rows Sample.carol_pending)
  = ([], ["Real name looks odd."])
  /\ NewAccountRequest.handle_warnings Sample.carol_odd
     = WARNINGS_other "force"
  /\ exists trace,
       create_account Sample.wary_validator Sample.provisioner_phases
         Sample.to_dict Sample.carol_odd Sample.carol_pending
       = (Ok {| NewAccountResponse.status := NewAccountResponse.CREATED;
                NewAccountResponse.errors := [] |},
          {| rows := [Sample.carol_row]; log := [] ++ trace |})
       /\ actions trace
          = [Provision Sample.carol_odd;
             DispatchEvent "ocflib.account_created"
                           (Sample.to_dict Sample.carol_odd)].
Proof.
  split; [reflexivity | split; [reflexivity |]].
  apply (create_account_other_mode_creates Sample.wary_validator
           Sample.provisioner_phases Sample.to_dict Sample.carol_odd
           Sample.carol_pending ["Real name looks odd."]);
    [reflexivity | discriminate | discriminate | discriminate].
Defined.

Lemma decision_without_row_fails_witness :
  (forall row, In row (rows Sample.carol_pending) ->
     StoredNewAccountRequest.user_name row <> "alice")
  /\ approve_request Sample.to_dict "alice" Sample.carol_pending
     = (Raise UnmappedInstanceError, Sample.carol_pending)
  /\ reject_request Sample.to_dict "alice" Sample.carol_pending
     = (Raise UnmappedInstanceError, Sample.carol_pending).
Proof.
  assert (Habsent : forall row, In row (rows Sample.carol_pending) ->
                      StoredNewAccountRequest.user_name row <> "alice").
  { intros row [<- | []]. discriminate. }
  split; [exact Habsent |].
  exact (decision_without_row_fails Sample.to_dict "alice"
           Sample.carol_pending Habsent).
Defined.

Lemma decision_deletes_then_acts_witness :
  table_ok (rows Sample.carol_pending)
  /\ In Sample.carol_row (rows Sample.carol_pending)
  /\ exists request,
       StoredNewAccountRequest.to_request Sample.carol_row None = Ok request
       /\ approve_request Sample.to_dict "carol" Sample.carol_pending
          = (Ok tt,
             {| rows := [];
                log := [SqlDelete Sample.carol_row;
                        TaskDelay request;
                        DispatchEvent "ocflib.account_approved"
                                      (Sample.to_dict request)] |})
       /\ reject_request Sample.to_dict "carol" Sample.carol_pending
          = (Ok tt,
             {| rows := [];
                log := [SqlDelete Sample.carol_row;
                        RejectedMail request "TODO: come up with a reason";
                        DispatchEvent "ocflib.account_rejected"
                                      (Sample.to_dict request)] |})
       /\ (forall row', In row' [] <->
             In row' (rows Sample.carol_pending) /\ row' <> Sample.carol_row)
       /\ (forall w', rows w' = [] ->
             approve_request Sample.to_dict "carol" w'
             = (Raise UnmappedInstanceError, w')
             /\ reject_request Sample.to_dict "carol" w'
                = (Raise UnmappedInstanceError, w')).
Proof.
  split; [exact carol_pending_ok | split; [left; reflexivity |]].
  exact (decision_deletes_then_acts Sample.to_dict "carol" Sample.carol_row
           Sample.carol_pending carol_pending_ok (or_introl eq_refl) eq_refl).
Defined.

Lemma user_has_request_pending_spec_witness :
  exists pending,
    user_has_request_pending {| session_new := []; session_deleted := [] |}
      Sample.carol Sample.carol_pending
    = (Ok pending, Sample.carol_pending)
    /\ pending = true.
Proof.
  destruct (user_has_request_pending_spec
              {| session_new := []; session_deleted := [] |}
              Sample.carol Sample.carol_pending)
    as (pending & Hrun & _ & Hindividual & _).
  exists pending. split; [exact Hrun |].
  apply (Hindividual eq_refl).
  exists Sample.carol_row. split; [left; reflexivity | reflexivity].
Defined.


(** The scenarios of the spec, run on the model. *)

Example scenario_bob :
  create_account Sample.silent_validator Sample.provisioner_phases
    Sample.to_dict Sample.bob Sample.nothing_pending
  = (Ok {| NewAccountResponse.status := "created";
           NewAccountResponse.errors := [] |},
     {| rows := [];
        log :=
          [UpdateState ["Validating account request"];
           UpdateState ["Validating account request";
                        "Validated account request"];
           Provision Sample.bob;
           UpdateState ["Validating account request";
                        "Validated account request";
                        "Creating Kerberos keytab"];
           UpdateState ["Validating account request";
                        "Validated account request";
                        "Creating Kerberos keytab";
                        "Created Kerberos keytab"];
           UpdateState ["Validating account request";
                        "Validated account request";
                        "Creating Kerberos keytab";
                        "Created Kerberos keytab";
                        "Creating home and web directories"];
           UpdateState ["Validating account request";
                        "Validated account request";
                        "Creating Kerberos keytab";
                        "Created Kerberos keytab";
                        "Creating home and web directories";
                        "Created home and web directories"];
           DispatchEvent "ocflib.account_created" (Sample.to_dict Sample.bob)] |}).
Proof. reflexivity. Qed.

Example scenario_carol :
  let submit :=
    create_account Sample.wary_validator Sample.provisioner_phases
      Sample.to_dict Sample.carol in
  let approve := approve_request Sample.to_dict "carol" in
  exists w1 w2,
    submit Sample.nothing_pending
    = (Ok {| NewAccountResponse.status := "pending";
             NewAccountResponse.errors := ["Real name looks odd."] |}, w1)
    /\ rows w1 = [Sample.carol_row]
    /\ approve w1 = (Ok tt, w2)
    /\ rows w2 = []
    /\ actions (log w2)
       = [SqlInsert Sample.carol_row;
          DispatchEvent "ocflib.account_submitted"
            (Sample.to_dict Sample.carol
             ++ [("reasons", PyList ["Real name looks odd."])]);
          SqlDelete Sample.carol_row;
          TaskDelay Sample.carol_create;
          DispatchEvent "ocflib.account_approved"
                        (Sample.to_dict Sample.carol_create)]
    /\ approve w2 = (Raise UnmappedInstanceError, w2).
Proof.
  do 2 eexists. repeat split.
Qed.

Example scenario_same_person_twice :
  user_has_request_pending {| session_new := []; session_deleted := [] |}
    {| NewAccountRequest.user_name := "carol2";
       NewAccountRequest.real_name := "Carol Chen";
       NewAccountRequest.is_group := false;
       NewAccountRequest.calnet_uid := Some 999%Z;
       NewAccountRequest.callink_oid := Some 0%Z;
       NewAccountRequest.email := "carol@berkeley.edu";
       NewAccountRequest.encrypted_password := [x2a; x17];
       NewAccountRequest.handle_warnings := WARNINGS_WARN |}
    Sample.carol_pending
  = (Ok true, Sample.carol_pending).
Proof. reflexivity. Qed.

(* ===================================================================== *)
(** ** More on the table, the stored row and the queries *)
(* ===================================================================== *)

Section more_table_properties.

Lemma NoDup_map_filter :
  forall (A B : Type) (f : A -> B) (p : A -> bool) (l : list A),
    NoDup (map f l) -> NoDup (map f (filter p l)).
Proof.
  intros A B f p l. induction l as [| a l IH]; intros Hnd; [exact Hnd |].
  cbn in Hnd. inversion Hnd as [| x xs Hnotin Hnd']; subst.
  cbn. destruct (p a); [| apply IH; exact Hnd'].
  cbn. constructor; [| apply IH; exact Hnd'].
  intro Hin. apply Hnotin. apply in_map_iff in Hin.
  destruct Hin as (b & Hfb & Hb). apply filter_In in Hb.
  rewrite <- Hfb. apply in_map. tauto.
Qed.

Lemma table_ok_filter :
  forall (p : Row -> bool) (table : list Row),
    table_ok table -> table_ok (filter p table).
Proof.
  intros p table (Hid & Hnd & Hnames). repeat split.
  - intros row Hin. apply filter_In in Hin. apply Hid. tauto.
  - apply NoDup_map_filter. exact Hnd.
  - apply NoDup_map_filter. exact Hnames.
Qed.

Lemma find_app_none :
  forall (A : Type) (p : A -> bool) (l l' : list A),
    find p l = None -> find p (l ++ l') = find p l'.
Proof.
  intros A p l l'. induction l as [| a l IH]; intro Hnone; [reflexivity |].
  cbn in *. destruct (p a); [discriminate | apply IH; exact Hnone].
Qed.

Lemma filter_keeps_all :
  forall (A : Type) (p : A -> bool) (l : list A),
    (forall a, In a l -> p a = true) -> filter p l = l.
Proof.
  intros A p l. induction l as [| a l IH]; intro Hall; [reflexivity |].
  cbn. rewrite (Hall a (or_introl eq_refl)). f_equal.
  apply IH. intros b Hb. apply Hall. right. exact Hb.
Qed.

(** Deleting the row that was inserted last gives the table back. *)
Lemma delete_after_insert :
  forall (table : list Row) (row : Row),
    let stored := with_id row (next_id table) in
    filter (fun row' => negb (same_id stored row')) (table ++ [stored]) = table.
Proof.
  intros table row stored. rewrite filter_app.
  rewrite filter_keeps_all.
  - cbn [filter]. unfold same_id at 1. unfold stored at 1 2.
    cbn [with_id StoredNewAccountRequest.id pk_eqb].
    rewrite Z.eqb_refl. cbn. apply app_nil_r.
  - intros row' Hin. apply negb_true_iff. unfold same_id, stored.
    cbn [with_id StoredNewAccountRequest.id].
    destruct (StoredNewAccountRequest.id row') as [n |] eqn:Eid;
      [| reflexivity].
    cbn [pk_eqb]. apply Z.eqb_neq.
    pose proof (next_id_above table row' n Hin Eid). lia.
Qed.

(** X1.  [to_request] never raises: every row, whatever its [id], converts to
    a request with the row's seven fields and the mode that was passed,
    CREATE when none was. *)
Theorem to_request_never_raises :
  forall (row : Row) mode,
  exists request,
    StoredNewAccountRequest.to_request row mode = Ok request
    /\ fields_match row request
    /\ NewAccountRequest.handle_warnings request
       = match mode with Some m => m | None => WARNINGS_CREATE end.
Proof.
  intros row mode. exact (to_request_total row mode).
Qed.

(** X2.  Row to request to row: [from_request] of what [to_request] returns
    is the row again, except for the primary key, which a request does not
    carry. *)
Theorem to_request_from_request :
  forall (row : Row) mode request,
    StoredNewAccountRequest.to_request row mode = Ok request ->
    StoredNewAccountRequest.from_request request = without_id row.
Proof.
  intros row mode request Hreq.
  destruct (to_request_total row mode) as (request' & Hreq' & Hfields & _).
  rewrite Hreq in Hreq'. inversion Hreq'; subst request'.
  destruct Hfields as (Hu & Hr & Hg & Hcu & Hco & He & Hp).
  unfold StoredNewAccountRequest.from_request, without_id.
  rewrite <- Hu, <- Hr, <- Hg, <- Hcu, <- Hco, <- He, <- Hp. reflexivity.
Qed.

Lemma append_right_cancel :
  forall s1 s2 suffix : string,
    (s1 ++ suffix)%string = (s2 ++ suffix)%string -> s1 = s2.
Proof.
  intros s1 s2 suffix H.
  apply (f_equal list_ascii_of_string) in H.
  assert (Happ : forall a b,
            list_ascii_of_string (a ++ b)%string
            = list_ascii_of_string a ++ list_ascii_of_string b).
  { induction a as [| c a IH]; intro b; cbn; [reflexivity |].
    rewrite IH. reflexivity. }
  rewrite !Happ in H. apply app_inv_tail in H.
  apply (f_equal string_of_list_ascii) in H.
  rewrite !string_of_list_ascii_of_string in H. exact H.
Qed.

Lemma group_is_not_individual :
  forall s1 s2 : string,
    (s1 ++ " (group), because of reasons")%string
    <> (s2 ++ " (individual), because of reasons")%string.
Proof.
  intros s1 s2 H.
  apply (f_equal list_ascii_of_string) in H.
  assert (Happ : forall a b,
            list_ascii_of_string (a ++ b)%string
            = list_ascii_of_string a ++ list_ascii_of_string b).
  { induction a as [| c a IH]; intro b; cbn; [reflexivity |].
    rewrite IH. reflexivity. }
  rewrite !Happ in H.
  apply (f_equal (@rev Ascii.ascii)) in H.
  rewrite !rev_app_distr in H. cbn in H. discriminate H.
Qed.

(** X3.  [__str__] tells pending requests apart: two rows that print alike
    have the same username and are both groups or both individuals. *)
Theorem str_tells_rows_apart :
  forall row1 row2 : Row,
    StoredNewAccountRequest.__str__ row1 = StoredNewAccountRequest.__str__ row2 ->
    StoredNewAccountRequest.user_name row1 = StoredNewAccountRequest.user_name row2
    /\ StoredNewAccountRequest.is_group row1 = StoredNewAccountRequest.is_group row2.
Proof.
  intros row1 row2. unfold StoredNewAccountRequest.__str__.
  destruct (StoredNewAccountRequest.is_group row1),
           (StoredNewAccountRequest.is_group row2); intro H.
  - split; [| reflexivity].
    apply (append_right_cancel _ _ " (group), because of reasons"). exact H.
  - exfalso. exact (group_is_not_individual _ _ H).
  - exfalso. symmetry in H. exact (group_is_not_individual _ _ H).
  - split; [| reflexivity].
    apply (append_right_cancel _ _ " (individual), because of reasons"). exact H.
Qed.

(** X4.  [username_pending] answers True exactly when one of the rows that
    [get_pending_requests] lists has the request's username; both leave the
    world as it is. *)
Theorem username_pending_iff_listed :
  forall session request w,
  exists pending listed,
    username_pending session request w = (Ok pending, w)
    /\ get_pending_requests w = (Ok listed, w)
    /\ (pending = true <->
        exists row, In row listed
                    /\ StoredNewAccountRequest.user_name row
                       = NewAccountRequest.user_name request).
Proof.
  intros session request w. do 2 eexists.
  split; [reflexivity |]. split; [reflexivity |].
  rewrite existsb_exists.
  split; intros (row & Hin & Hname); exists row; split; auto;
    apply String.eqb_eq; exact Hname.
Qed.

End more_table_properties.

(* ===================================================================== *)
(** ** Every run of approve_request and reject_request *)
(* ===================================================================== *)

Section decision_runs.

Variable to_dict : NewAccountRequest.t -> dict.

Lemma get_remove_row_found :
  forall user_name row w,
    find (has_user_name user_name) (rows w) = Some row ->
    exists request,
      StoredNewAccountRequest.to_request row None = Ok request
      /\ get_remove_row_by_user_name user_name w =
           (Ok request,
            {| rows := filter (fun row' => negb (same_id row row')) (rows w);
               log := log w ++ [SqlDelete row] |}).
Proof.
  intros user_name row w Hfind.
  destruct (to_request_total row None) as (request & Hreq & _).
  exists request. split; [exact Hreq |].
  unfold get_remove_row_by_user_name, get_session, query_filter_first,
    bind, ret, lift.
  change (fun row : Row =>
            String.eqb (StoredNewAccountRequest.user_name row) user_name)
    with (has_user_name user_name).
  rewrite Hfind.
  cbn -[StoredNewAccountRequest.to_request]. rewrite Hreq. reflexivity.
Qed.

(** The two ways a decision can go. *)
Lemma decision_cases :
  forall user_name w,
    (find (has_user_name user_name) (rows w) = None
     /\ approve_request to_dict user_name w = (Raise UnmappedInstanceError, w)
     /\ reject_request to_dict user_name w = (Raise UnmappedInstanceError, w))
    \/ (exists row request,
          find (has_user_name user_name) (rows w) = Some row
          /\ StoredNewAccountRequest.to_request row None = Ok request
          /\ approve_request to_dict user_name w =
               (Ok tt,
                {| rows := filter (fun row' => negb (same_id row row')) (rows w);
                   log := log w ++
                          [SqlDelete row; TaskDelay request;
                           DispatchEvent "ocflib.account_approved"
                                         (to_dict request)] |})
          /\ reject_request to_dict user_name w =
               (Ok tt,
                {| rows := filter (fun row' => negb (same_id row row')) (rows w);
                   log := log w ++
                          [SqlDelete row;
                           RejectedMail request "TODO: come up with a reason";
                           DispatchEvent "ocflib.account_rejected"
                                         (to_dict request)] |})).
Proof.
  intros user_name w.
  destruct (find (has_user_name user_name) (rows w)) as [row |] eqn:Hfind.
  - right. destruct (get_remove_row_found user_name row w Hfind)
      as (request & Hreq & Hrun).
    exists row, request. split; [reflexivity |]. split; [exact Hreq |].
    unfold approve_request, reject_request, send_rejected_mail,
      dispatch_event, bind, emit.
    rewrite Hrun. cbn [rows log]. rewrite <- !app_assoc. split; reflexivity.
  - left. split; [reflexivity |].
    apply decisions_fail_without_row.
    intros row Hin Hname. apply (find_none _ _ Hfind) in Hin.
    unfold has_user_name in Hin. rewrite Hname, String.eqb_refl in Hin.
    discriminate.
Qed.

(** X5.  A decision that completes has deleted a row: when
    [approve_request] or [reject_request] returns, some stored row had the
    username, the DELETE of that row is the first effect, the table is the
    old table without the rows of that primary key, and the request that was
    enqueued or mailed and then published is the one rebuilt from that
    row. *)
Theorem completed_decision_deleted_a_row :
  forall user_name w,
    (forall w',
       approve_request to_dict user_name w = (Ok tt, w') ->
       exists row request,
         In row (rows w)
         /\ StoredNewAccountRequest.user_name row = user_name
         /\ StoredNewAccountRequest.to_request row None = Ok request
         /\ w' = {| rows := filter (fun row' => negb (same_id row row')) (rows w);
                    log := log w ++
                           [SqlDelete row; TaskDelay request;
                            DispatchEvent "ocflib.account_approved"
                                          (to_dict request)] |})
    /\ (forall w',
          reject_request to_dict user_name w = (Ok tt, w') ->
          exists row request,
            In row (rows w)
            /\ StoredNewAccountRequest.user_name row = user_name
            /\ StoredNewAccountRequest.to_request row None = Ok request
            /\ w' = {| rows := filter (fun row' => negb (same_id row row'))
                                      (rows w);
                       log := log w ++
                              [SqlDelete row;
                               RejectedMail request "TODO: come up with a reason";
                               DispatchEvent "ocflib.account_rejected"
                                             (to_dict request)] |}).
Proof.
  intros user_name w.
  destruct (decision_cases user_name w)
    as [(_ & Happrove & Hreject)
       | (row & request & Hfind & Hreq & Happrove & Hreject)].
  - rewrite Happrove, Hreject. split; intros w' H; discriminate H.
  - apply find_some in Hfind. destruct Hfind as [Hin Hname].
    apply String.eqb_eq in Hname.
    rewrite Happrove, Hreject.
    split; intros w' H; inversion H; exists row, request;
      (split; [exact Hin |]); (split; [exact Hname |]);
      (split; [exact Hreq | reflexivity]).
Qed.

(** X6.  A decision keeps the invariant of the table and never adds a row:
    every row stored after [approve_request] or [reject_request] was stored
    before. *)
Theorem decision_keeps_table_ok :
  forall user_name w,
    table_ok (rows w) ->
    let after_approve := rows (snd (approve_request to_dict user_name w)) in
    let after_reject := rows (snd (reject_request to_dict user_name w)) in
    table_ok after_approve /\ incl after_approve (rows w)
    /\ table_ok after_reject /\ incl after_reject (rows w).
Proof.
  intros user_name w Hok after_approve after_reject.
  subst after_approve after_reject.
  destruct (decision_cases user_name w)
    as [(_ & Happrove & Hreject)
       | (row & request & _ & _ & Happrove & Hreject)];
    rewrite Happrove, Hreject; cbn [snd rows].
  - split; [exact Hok | split; [apply incl_refl |]].
    split; [exact Hok | apply incl_refl].
  - assert (Hincl : incl (filter (fun row' => negb (same_id row row')) (rows w))
                         (rows w)).
    { intros row' Hin. apply filter_In in Hin. tauto. }
    split; [apply table_ok_filter; exact Hok | split; [exact Hincl |]].
    split; [apply table_ok_filter; exact Hok | exact Hincl].
Qed.

End decision_runs.

(* ===================================================================== *)
(** ** Every run of create_account *)
(* ===================================================================== *)

Section create_account_runs.

Variable validator :
  NewAccountRequest.t -> list Row -> list string * list string.
Variable provisioner_phases :
  NewAccountRequest.t -> list (string * string * string).
Variable to_dict : NewAccountRequest.t -> dict.

Lemma progress_app :
  forall t1 t2, progress (t1 ++ t2) = progress t1 ++ progress t2.
Proof. intros. unfold progress. apply flat_map_app. Qed.

(** The Provisioner's reports continue the status list it was handed. *)
Lemma run_phases_reports :
  forall phases status w,
  exists status' trace,
    run_phases phases status w =
      (Ok status', {| rows := rows w; log := log w ++ trace |})
    /\ actions trace = []
    /\ grows_by_one_line status (progress trace).
Proof.
  induction phases as [| [[start stop] task] phases IH]; intros status w.
  - exists status, []. split; [| split; [reflexivity | exact I]].
    cbn. rewrite app_nil_r. destruct w; reflexivity.
  - cbn [run_phases].
    unfold report_status, _report_status, bind, emit, ret. cbn [rows log].
    match goal with |- context [run_phases phases ?s ?w0] =>
      destruct (IH s w0) as (status' & trace & Hrun & Hact & Hgrow) end.
    cbn [rows log] in Hrun.
    exists status',
      (UpdateState (status ++ [(start ++ " " ++ task)%string])
       :: UpdateState ((status ++ [(start ++ " " ++ task)%string])
                       ++ [(stop ++ " " ++ task)%string])
       :: trace).
    split; [| split].
    + rewrite Hrun. do 2 f_equal. rewrite <- !app_assoc. reflexivity.
    + cbn. exact Hact.
    + cbn. split; [eexists; reflexivity |].
      split; [eexists; reflexivity | exact Hgrow].
Qed.

Lemma run_rejected :
  forall request w e errors warnings,
    validator request (rows w) = (e :: errors, warnings) ->
    create_account validator provisioner_phases to_dict request w =
      (Ok {| NewAccountResponse.status := NewAccountResponse.REJECTED;
             NewAccountResponse.errors := (e :: errors) ++ warnings |},
       {| rows := rows w; log := log w ++ validating |}).
Proof.
  intros request w e errors warnings Hv.
  unfold create_account, report_status, _report_status, validate_request,
    get_session, bind, emit, ret.
  cbn [rows log]. rewrite Hv. cbn. rewrite <- app_assoc. reflexivity.
Qed.

Lemma run_flagged :
  forall request w warning warnings,
    validator request (rows w) = ([], warning :: warnings) ->
    NewAccountRequest.handle_warnings request = WARNINGS_WARN ->
    create_account validator provisioner_phases to_dict request w =
      (Ok {| NewAccountResponse.status := NewAccountResponse.FLAGGED;
             NewAccountResponse.errors := warning :: warnings |},
       {| rows := rows w; log := log w ++ validating |}).
Proof.
  intros request w warning warnings Hv Hmode.
  unfold create_account, report_status, _report_status, validate_request,
    get_session, bind, emit, ret.
  cbn [rows log]. rewrite Hv, Hmode. cbn. rewrite <- app_assoc. reflexivity.
Qed.

Lemma run_submitted :
  forall request w warning warnings,
    validator request (rows w) = ([], warning :: warnings) ->
    NewAccountRequest.handle_warnings request = WARNINGS_SUBMIT ->
    fits_columns (with_id (StoredNewAccountRequest.from_request request)
                          (next_id (rows w))) = true ->
    existsb (has_user_name (NewAccountRequest.user_name request)) (rows w)
    = false ->
    let stored :=
      with_id (StoredNewAccountRequest.from_request request)
              (next_id (rows w)) in
    create_account validator provisioner_phases to_dict request w =
      (Ok {| NewAccountResponse.status := NewAccountResponse.PENDING;
             NewAccountResponse.errors := warning :: warnings |},
       {| rows := rows w ++ [stored];
          log := log w ++ validating ++
            [UpdateState ["Validating account request";
                          "Validated account request";
                          "Submitting account for staff approval"];
             SqlInsert stored;
             DispatchEvent "ocflib.account_submitted"
               (dict_set (to_dict request) "reasons"
                         (PyList (warning :: warnings)));
             UpdateState ["Validating account request";
                          "Validated account request";
                          "Submitting account for staff approval";
                          "Submitted account for staff approval"]] |}).
Proof.
  intros request w warning warnings Hv Hmode Hfits Hfree stored.
  unfold create_account, report_status, _report_status, validate_request,
    get_session, session_add, session_commit, dispatch_event, bind, emit, ret.
  cbn [rows log]. rewrite Hv, Hmode.
  cbn [truthy app session_new session_deleted flush_new flush_deleted
       result_bind rows log].
  unfold sql_insert.
  change (assign_id (rows w) (StoredNewAccountRequest.from_request request))
    with (with_id (StoredNewAccountRequest.from_request request)
                  (next_id (rows w))).
  change (existsb (same_user_name (StoredNewAccountRequest.from_request request))
                  (rows w))
    with (existsb (has_user_name (NewAccountRequest.user_name request)) (rows w)).
  rewrite Hfits, Hfree. cbn. rewrite <- !app_assoc. reflexivity.
Qed.

(** The two ways the INSERT of a submission is refused. *)
Lemma run_refused :
  forall request w warning warnings,
    validator request (rows w) = ([], warning :: warnings) ->
    NewAccountRequest.handle_warnings request = WARNINGS_SUBMIT ->
    fits_columns (with_id (StoredNewAccountRequest.from_request request)
                          (next_id (rows w))) = true ->
    existsb (has_user_name (NewAccountRequest.user_name request)) (rows w)
    = true ->
    create_account validator provisioner_phases to_dict request w =
      (Raise IntegrityError,
       {| rows := rows w;
          log := log w ++ validating ++
            [UpdateState ["Validating account request";
                          "Validated account request";
                          "Submitting account for staff approval"]] |}).
Proof.
  intros request w warning warnings Hv Hmode Hfits Htaken.
  unfold create_account, report_status, _report_status, validate_request,
    get_session, session_add, session_commit, dispatch_event, bind, emit, ret.
  cbn [rows log]. rewrite Hv, Hmode.
  cbn [truthy app session_new session_deleted flush_new flush_deleted
       result_bind rows log].
  unfold sql_insert.
  change (assign_id (rows w) (StoredNewAccountRequest.from_request request))
    with (with_id (StoredNewAccountRequest.from_request request)
                  (next_id (rows w))).
  change (existsb (same_user_name (StoredNewAccountRequest.from_request request))
                  (rows w))
    with (existsb (has_user_name (NewAccountRequest.user_name request)) (rows w)).
  rewrite Hfits, Htaken. cbn. rewrite <- !app_assoc. reflexivity.
Qed.

Lemma run_misfit :
  forall request w warning warnings,
    validator request (rows w) = ([], warning :: warnings) ->
    NewAccountRequest.handle_warnings request = WARNINGS_SUBMIT ->
    fits_columns (with_id (StoredNewAccountRequest.from_request request)
                          (next_id (rows w))) = false ->
    create_account validator provisioner_phases to_dict request w =
      (Raise DataError,
       {| rows := rows w;
          log := log w ++ validating ++
            [UpdateState ["Validating account request";
                          "Validated account request";
                          "Submitting account for staff approval"]] |}).
Proof.
  intros request w warning warnings Hv Hmode Hfits.
  unfold create_account, report_status, _report_status, validate_request,
    get_session, session_add, session_commit, dispatch_event, bind, emit, ret.
  cbn [rows log]. rewrite Hv, Hmode.
  cbn [truthy app session_new session_deleted flush_new flush_deleted
       result_bind rows log].
  unfold sql_insert.
  change (assign_id (rows w) (StoredNewAccountRequest.from_request request))
    with (with_id (StoredNewAccountRequest.from_request request)
                  (next_id (rows w))).
  rewrite Hfits. cbn. rewrite <- !app_assoc. reflexivity.
Qed.

Lemma run_created :
  forall request w warnings,
    validator request (rows w) = ([], warnings) ->
    warnings = [] \/
    (NewAccountRequest.handle_warnings request <> WARNINGS_SUBMIT /\
     NewAccountRequest.handle_warnings request <> WARNINGS_WARN) ->
    exists reported,
      create_account validator provisioner_phases to_dict request w =
        (Ok {| NewAccountResponse.status := NewAccountResponse.CREATED;
               NewAccountResponse.errors := [] |},
         {| rows := rows w;
            log := log w ++ validating ++ [Provision request] ++ reported ++
                   [DispatchEvent "ocflib.account_created" (to_dict request)] |})
      /\ actions reported = []
      /\ grows_by_one_line
           ["Validating account request"; "Validated account request"]
           (progress reported).
Proof.
  intros request w warnings Hv Hmode.
  assert (Hfall :
    (if truthy warnings then
       match NewAccountRequest.handle_warnings request with
       | WARNINGS_SUBMIT => false
       | WARNINGS_WARN => false
       | _ => true
       end
     else true) = true).
  { destruct Hmode as [-> | [Hs Hw]]; [reflexivity |].
    destruct (truthy warnings); [| reflexivity].
    destruct (NewAccountRequest.handle_warnings request); congruence. }
  unfold create_account, report_status, _report_status, validate_request,
    get_session, real_create_account, dispatch_event, bind, emit, ret.
  cbn [rows log]. rewrite Hv. cbn [truthy app].
  destruct (truthy warnings);
    [destruct (NewAccountRequest.handle_warnings request);
     try discriminate Hfall |];
    cbn [rows log];
    match goal with |- context [run_phases _ ?s ?w0] =>
      destruct (run_phases_reports (provisioner_phases request) s w0)
        as (status' & reported & Hrun & Hact & Hgrow) end;
    cbn [rows log] in Hrun; rewrite Hrun; cbn [rows log];
    exists reported;
    (split; [unfold validating; rewrite <- !app_assoc; reflexivity
            | split; [exact Hact | exact Hgrow]]).
Qed.

(** The six ways a run of [create_account] can go. *)
Lemma create_account_cases :
  forall request w,
    let stored :=
      with_id (StoredNewAccountRequest.from_request request)
              (next_id (rows w)) in
    let taken :=
      existsb (has_user_name (NewAccountRequest.user_name request)) (rows w) in
    exists errors warnings result rows' trace,
      validator request (rows w) = (errors, warnings)
      /\ create_account validator provisioner_phases to_dict request w =
           (result, {| rows := rows'; log := log w ++ trace |})
      /\ (exists reports,
            progress trace =
              ["Validating account request"]
              :: ["Validating account request"; "Validated account request"]
              :: reports)
      /\ grows_by_one_line [] (progress trace)
      /\ ((errors <> []
           /\ result = Ok {| NewAccountResponse.status := NewAccountResponse.REJECTED;
                             NewAccountResponse.errors := errors ++ warnings |}
           /\ rows' = rows w /\ actions trace = [])
          \/ (errors = [] /\ warnings <> []
              /\ NewAccountRequest.handle_warnings request = WARNINGS_SUBMIT
              /\ fits_columns stored = false
              /\ result = Raise DataError
              /\ rows' = rows w /\ actions trace = [])
          \/ (errors = [] /\ warnings <> []
              /\ NewAccountRequest.handle_warnings request = WARNINGS_SUBMIT
              /\ fits_columns stored = true
              /\ taken = true
              /\ result = Raise IntegrityError
              /\ rows' = rows w /\ actions trace = [])
          \/ (errors = [] /\ warnings <> []
              /\ NewAccountRequest.handle_warnings request = WARNINGS_SUBMIT
              /\ fits_columns stored = true
              /\ taken = false
              /\ result = Ok {| NewAccountResponse.status := NewAccountResponse.PENDING;
                                NewAccountResponse.errors := warnings |}
              /\ rows' = rows w ++ [stored]
              /\ actions trace =
                   [SqlInsert stored;
                    DispatchEvent "ocflib.account_submitted"
                      (dict_set (to_dict request) "reasons" (PyList warnings))])
          \/ (errors = [] /\ warnings <> []
              /\ NewAccountRequest.handle_warnings request = WARNINGS_WARN
              /\ result = Ok {| NewAccountResponse.status := NewAccountResponse.FLAGGED;
                                NewAccountResponse.errors := warnings |}
              /\ rows' = rows w /\ actions trace = [])
          \/ (errors = []
              /\ (warnings = [] \/
                  (NewAccountRequest.handle_warnings request <> WARNINGS_SUBMIT /\
                   NewAccountRequest.handle_warnings request <> WARNINGS_WARN))
              /\ result = Ok {| NewAccountResponse.status := NewAccountResponse.CREATED;
                                NewAccountResponse.errors := [] |}
              /\ rows' = rows w
              /\ actions trace =
                   [Provision request;
                    DispatchEvent "ocflib.account_created" (to_dict request)])).
Proof.
  intros request w stored taken.
  destruct (validator request (rows w)) as [errors warnings] eqn:Hv.
  exists errors, warnings.
  assert (Hcreated :
    warnings = [] \/
    (NewAccountRequest.handle_warnings request <> WARNINGS_SUBMIT /\
     NewAccountRequest.handle_warnings request <> WARNINGS_WARN) ->
    errors = [] ->
    exists result rows' trace,
      (errors, warnings) = (errors, warnings)
      /\ create_account validator provisioner_phases to_dict request w =
           (result, {| rows := rows'; log := log w ++ trace |})
      /\ (exists reports,
            progress trace =
              ["Validating account request"]
              :: ["Validating account request"; "Validated account request"]
              :: reports)
      /\ grows_by_one_line [] (progress trace)
      /\ errors = []
      /\ result = Ok {| NewAccountResponse.status := NewAccountResponse.CREATED;
                        NewAccountResponse.errors := [] |}
      /\ rows' = rows w
      /\ actions trace =
           [Provision request;
            DispatchEvent "ocflib.account_created" (to_dict request)]).
  { intros Hmode ->.
    destruct (run_created request w warnings Hv Hmode)
      as (reported & Hrun & Hact & Hgrow).
    rewrite Hrun. do 3 eexists. split; [reflexivity |].
    split; [reflexivity |]. unfold validating.
    rewrite !progress_app, !actions_app, Hact.
    cbn [progress actions flat_map filter app is_update_state negb].
    rewrite app_nil_r.
    split; [eexists; reflexivity |].
    split; [| split; [reflexivity | split; [reflexivity | split; reflexivity]]].
    cbn [grows_by_one_line].
    split; [exists "Validating account request"; reflexivity |].
    split; [exists "Validated account request"; reflexivity | exact Hgrow]. }
  assert (Hother :
    NewAccountRequest.handle_warnings request <> WARNINGS_SUBMIT ->
    NewAccountRequest.handle_warnings request <> WARNINGS_WARN ->
    warnings = [] \/
    (NewAccountRequest.handle_warnings request <> WARNINGS_SUBMIT /\
     NewAccountRequest.handle_warnings request <> WARNINGS_WARN)).
  { intros Hs Hw. right. split; assumption. }
  destruct errors as [| e errors].
  - destruct warnings as [| warning warnings].
    + destruct (Hcreated (or_introl eq_refl) eq_refl)
        as (result & rows' & trace & _ & Hrun & Hhead & Hgrow & _ & Hres & Hrows & Hact).
      exists result, rows', trace.
      split; [reflexivity |]. split; [exact Hrun |]. split; [exact Hhead |].
      split; [exact Hgrow |].
      do 5 right. split; [reflexivity |]. split; [left; reflexivity |].
      split; [exact Hres |]. split; [exact Hrows | exact Hact].
    + destruct (NewAccountRequest.handle_warnings request) eqn:Hmode.
      * assert (Hs : WARNINGS_CREATE <> WARNINGS_SUBMIT) by discriminate.
        assert (Hw : WARNINGS_CREATE <> WARNINGS_WARN) by discriminate.
        destruct (Hcreated (Hother Hs Hw) eq_refl)
          as (result & rows' & trace & _ & Hrun & Hhead & Hgrow & _ & Hres & Hrows & Hact).
        exists result, rows', trace.
        split; [reflexivity |]. split; [exact Hrun |]. split; [exact Hhead |].
        split; [exact Hgrow |].
        do 5 right. split; [reflexivity |]. split; [exact (Hother Hs Hw) |].
        split; [exact Hres |]. split; [exact Hrows | exact Hact].
      * destruct (fits_columns stored) eqn:Hfits; [destruct taken eqn:Htaken |].
        -- rewrite (run_refused request w warning warnings Hv Hmode Hfits Htaken).
           do 3 eexists. split; [reflexivity |]. split; [reflexivity |].
           unfold validating.
           cbn [progress actions flat_map filter app is_update_state negb
                grows_by_one_line].
           split; [eexists; reflexivity |].
           split; [split; [eexists; reflexivity
                          | split; [eexists; reflexivity
                                   | split; [eexists; reflexivity | exact I]]] |].
           do 2 right; left.
           split; [reflexivity |]. split; [discriminate |].
           split; [reflexivity |]. split; [reflexivity |].
           split; [reflexivity |]. split; [reflexivity |].
           split; reflexivity.
        -- rewrite (run_submitted request w warning warnings Hv Hmode Hfits Htaken).
           do 3 eexists. split; [reflexivity |]. split; [reflexivity |].
           unfold validating.
           cbn [progress actions flat_map filter app is_update_state negb
                grows_by_one_line].
           split; [eexists; reflexivity |].
           split; [split; [eexists; reflexivity
                          | split; [eexists; reflexivity
                                   | split; [eexists; reflexivity
                                            | split; [eexists; reflexivity
                                                     | exact I]]]] |].
           do 3 right; left.
           split; [reflexivity |]. split; [discriminate |].
           split; [reflexivity |]. split; [reflexivity |].
           split; [reflexivity |]. split; [reflexivity |].
           split; reflexivity.
        -- rewrite (run_misfit request w warning warnings Hv Hmode Hfits).
           do 3 eexists. split; [reflexivity |]. split; [reflexivity |].
           unfold validating.
           cbn [progress actions flat_map filter app is_update_state negb
                grows_by_one_line].
           split; [eexists; reflexivity |].
           split; [split; [eexists; reflexivity
                          | split; [eexists; reflexivity
                                   | split; [eexists; reflexivity | exact I]]] |].
           right; left.
           split; [reflexivity |]. split; [discriminate |].
           split; [reflexivity |]. split; [reflexivity |].
           split; [reflexivity |]. split; reflexivity.
      * rewrite (run_flagged request w warning warnings Hv Hmode).
        do 3 eexists. split; [reflexivity |]. split; [reflexivity |].
        unfold validating.
        cbn [progress actions flat_map filter app is_update_state negb
             grows_by_one_line].
        split; [eexists; reflexivity |].
        split; [split; [eexists; reflexivity
                       | split; [eexists; reflexivity | exact I]] |].
        do 4 right; left.
        split; [reflexivity |]. split; [discriminate |].
        split; [reflexivity |]. split; [reflexivity |].
        split; reflexivity.
      * assert (Hs : WARNINGS_other tag <> WARNINGS_SUBMIT) by discriminate.
        assert (Hw : WARNINGS_other tag <> WARNINGS_WARN) by discriminate.
        destruct (Hcreated (Hother Hs Hw) eq_refl)
          as (result & rows' & trace & _ & Hrun & Hhead & Hgrow & _ & Hres & Hrows & Hact).
        exists result, rows', trace.
        split; [reflexivity |]. split; [exact Hrun |]. split; [exact Hhead |].
        split; [exact Hgrow |].
        do 5 right. split; [reflexivity |]. split; [exact (Hother Hs Hw) |].
        split; [exact Hres |]. split; [exact Hrows | exact Hact].
  - rewrite (run_rejected request w e errors warnings Hv).
    do 3 eexists. split; [reflexivity |]. split; [reflexivity |].
    unfold validating.
    cbn [progress actions flat_map filter app is_update_state negb
         grows_by_one_line].
    split; [eexists; reflexivity |].
    split; [split; [eexists; reflexivity
                   | split; [eexists; reflexivity | exact I]] |].
    left. split; [discriminate |]. split; [reflexivity |].
    split; reflexivity.
Qed.

Lemma taken_iff :
  forall user_name (table : list Row),
    existsb (has_user_name user_name) table = true
    <-> exists row, In row table
                    /\ StoredNewAccountRequest.user_name row = user_name.
Proof.
  intros user_name table. rewrite existsb_exists. unfold has_user_name.
  split; intros (row & Hin & Hname); exists row; split; auto;
    apply String.eqb_eq; exact Hname.
Qed.

Lemma free_iff :
  forall user_name (table : list Row),
    existsb (has_user_name user_name) table = false
    <-> forall row, In row table ->
                    StoredNewAccountRequest.user_name row <> user_name.
Proof.
  intros user_name table. split.
  - intros Hfree row Hin Hname.
    assert (existsb (has_user_name user_name) table = true) as E
      by (apply taken_iff; exists row; auto).
    congruence.
  - intros Hfree.
    destruct (existsb (has_user_name user_name) table) eqn:E; [| reflexivity].
    apply taken_iff in E. destruct E as (row & Hin & Hname).
    exfalso. exact (Hfree row Hin Hname).
Qed.

Lemma pending_means_stored :
  forall request w response w1,
    create_account validator provisioner_phases to_dict request w
    = (Ok response, w1) ->
    NewAccountResponse.status response = NewAccountResponse.PENDING ->
    rows w1
    = rows w ++ [with_id (StoredNewAccountRequest.from_request request)
                         (next_id (rows w))]
    /\ existsb (has_user_name (NewAccountRequest.user_name request)) (rows w)
       = false.
Proof.
  intros request w response w1 Hok Hstatus.
  destruct (create_account_cases request w)
    as (errors & warnings & result & rows' & trace & Hv & Hrun & _ & _ & Hcase).
  rewrite Hrun in Hok. inversion Hok as [[Hres Hw1]]. clear Hok.
  destruct Hcase as [(_ & Hres' & _) | [(_ & _ & _ & _ & Hres' & _)
                    | [(_ & _ & _ & _ & _ & Hres' & _)
                    | [(_ & _ & _ & _ & Hfree & Hres' & Hrows & _)
                    | [(_ & _ & _ & Hres' & _) | (_ & _ & Hres' & _)]]]]];
    rewrite Hres' in Hres; inversion Hres; subst response;
    try discriminate Hstatus.
  cbn [rows]. split; [exact Hrows | exact Hfree].
Qed.

(** X7.  The status of a response tells which branch ran.  REJECTED: the
    Validator reported errors, and the response lists them before the
    warnings.  FLAGGED: no errors, some warnings, mode WARN.  PENDING: no
    errors, some warnings, mode SUBMIT, no stored row had the username, and
    the table has gained one row that matches the request.  CREATED: no
    errors, and no warnings or a mode other than SUBMIT and WARN.  The table
    is unchanged in all but the PENDING case. *)
Theorem response_status_tells_branch :
  forall request w response w',
    create_account validator provisioner_phases to_dict request w
    = (Ok response, w') ->
    let errors := fst (validator request (rows w)) in
    let warnings := snd (validator request (rows w)) in
    (NewAccountResponse.status response = NewAccountResponse.REJECTED ->
     errors <> []
     /\ NewAccountResponse.errors response = errors ++ warnings
     /\ rows w' = rows w)
    /\ (NewAccountResponse.status response = NewAccountResponse.FLAGGED ->
        errors = [] /\ warnings <> []
        /\ NewAccountRequest.handle_warnings request = WARNINGS_WARN
        /\ NewAccountResponse.errors response = warnings
        /\ rows w' = rows w)
    /\ (NewAccountResponse.status response = NewAccountResponse.PENDING ->
        errors = [] /\ warnings <> []
        /\ NewAccountRequest.handle_warnings request = WARNINGS_SUBMIT
        /\ NewAccountResponse.errors response = warnings
        /\ (forall row, In row (rows w) ->
              StoredNewAccountRequest.user_name row
              <> NewAccountRequest.user_name request)
        /\ exists stored,
             rows w' = rows w ++ [stored] /\ fields_match stored request)
    /\ (NewAccountResponse.status response = NewAccountResponse.CREATED ->
        errors = []
        /\ (warnings = [] \/
            (NewAccountRequest.handle_warnings request <> WARNINGS_SUBMIT /\
             NewAccountRequest.handle_warnings request <> WARNINGS_WARN))
        /\ NewAccountResponse.errors response = []
        /\ rows w' = rows w).
Proof.
  intros request w response w' Hok errors warnings. subst errors warnings.
  destruct (create_account_cases request w)
    as (errors & warnings & result & rows' & trace & Hv & Hrun & _ & _ & Hcase).
  rewrite Hrun in Hok. inversion Hok as [[Hres Hw']]. clear Hok.
  rewrite Hv. cbn [fst snd rows].
  destruct Hcase as [(Herr & Hres' & Hrows & _)
                    | [(_ & _ & _ & _ & Hres' & _)
                    | [(_ & _ & _ & _ & _ & Hres' & _)
                    | [(Herr & Hwarn & Hmode & _ & Hfree & Hres' & Hrows & _)
                    | [(Herr & Hwarn & Hmode & Hres' & Hrows & _)
                    | (Herr & Hmode & Hres' & Hrows & _)]]]]];
    rewrite Hres' in Hres; inversion Hres; subst response;
    cbn [NewAccountResponse.status NewAccountResponse.errors].
  - split; [intros _; auto |].
    split; [discriminate | split; discriminate].
  - split; [discriminate |]. split; [discriminate |].
    split; [| discriminate]. intros _.
    split; [exact Herr |]. split; [exact Hwarn |]. split; [exact Hmode |].
    split; [reflexivity |]. split; [apply free_iff; exact Hfree |].
    eexists. split; [exact Hrows |]. repeat split.
  - split; [discriminate |]. split; [| split; discriminate].
    intros _. auto.
  - split; [discriminate |]. split; [discriminate |].
    split; [discriminate |]. intros _. auto.
Qed.

(** X8.  The refused INSERT: with no errors, some warnings and mode SUBMIT,
    when the row fits the declared columns but a stored row already has the
    request's username, the task raises IntegrityError after reporting that
    it is submitting; the table is as it was, nothing is published, and the
    stop line of the submission is never reported. *)
Theorem create_account_refused_insert :
  forall request w warnings row,
    validator request (rows w) = ([], warnings) ->
    warnings <> [] ->
    NewAccountRequest.handle_warnings request = WARNINGS_SUBMIT ->
    fits_columns (with_id (StoredNewAccountRequest.from_request request)
                          (next_id (rows w))) = true ->
    In row (rows w) ->
    StoredNewAccountRequest.user_name row
    = NewAccountRequest.user_name request ->
    create_account validator provisioner_phases to_dict request w =
      (Raise IntegrityError,
       {| rows := rows w;
          log := log w ++
            [UpdateState ["Validating account request"];
             UpdateState ["Validating account request";
                          "Validated account request"];
             UpdateState ["Validating account request";
                          "Validated account request";
                          "Submitting account for staff approval"]] |}).
Proof.
  intros request w warnings row Hv Hwarn Hmode Hfits Hin Hname.
  destruct warnings as [| warning warnings]; [congruence |].
  apply (run_refused request w warning warnings Hv Hmode Hfits).
  apply taken_iff. exists row. auto.
Qed.

(** X9.  [create_account] keeps the invariant of the table: primary keys
    present and distinct, usernames distinct, whatever the outcome. *)
Theorem create_account_keeps_table_ok :
  forall request w,
    table_ok (rows w) ->
    table_ok
      (rows (snd (create_account validator provisioner_phases to_dict
                    request w))).
Proof.
  intros request w Hok.
  destruct (create_account_cases request w)
    as (errors & warnings & result & rows' & trace & Hv & Hrun & _ & _ & Hcase).
  rewrite Hrun. cbn [snd rows].
  destruct Hcase as [(_ & _ & -> & _) | [(_ & _ & _ & _ & _ & -> & _)
                    | [(_ & _ & _ & _ & _ & _ & -> & _)
                    | [(_ & _ & _ & Hfits & Hfree & _ & -> & _)
                    | [(_ & _ & _ & _ & -> & _) | (_ & _ & _ & -> & _)]]]]];
    try exact Hok.
  apply (sql_insert_keeps_table_ok (rows w)
           (StoredNewAccountRequest.from_request request) _ Hok).
  unfold sql_insert.
  change (assign_id (rows w) (StoredNewAccountRequest.from_request request))
    with (with_id (StoredNewAccountRequest.from_request request)
                  (next_id (rows w))).
  change (existsb (same_user_name (StoredNewAccountRequest.from_request request))
                  (rows w))
    with (existsb (has_user_name (NewAccountRequest.user_name request)) (rows w)).
  rewrite Hfits, Hfree. reflexivity.
Qed.


(** X11.  A response has one of the four statuses, and its error list is
    empty exactly when the status is CREATED. *)
Theorem create_account_response_shape :
  forall request w response w',
    create_account validator provisioner_phases to_dict request w
    = (Ok response, w') ->
    (NewAccountResponse.status response = NewAccountResponse.CREATED
     \/ NewAccountResponse.status response = NewAccountResponse.FLAGGED
     \/ NewAccountResponse.status response = NewAccountResponse.PENDING
     \/ NewAccountResponse.status response = NewAccountResponse.REJECTED)
    /\ (NewAccountResponse.errors response = []
        <-> NewAccountResponse.status response = NewAccountResponse.CREATED).
Proof.
  intros request w response w' Hok.
  destruct (create_account_cases request w)
    as (errors & warnings & result & rows' & trace & Hv & Hrun & _ & _ & Hcase).
  rewrite Hrun in Hok. inversion Hok as [[Hres Hw']]. clear Hok.
  destruct Hcase as [(Herr & Hres' & _) | [(_ & _ & _ & _ & Hres' & _)
                    | [(_ & _ & _ & _ & _ & Hres' & _)
                    | [(_ & Hwarn & _ & _ & _ & Hres' & _)
                    | [(_ & Hwarn & _ & Hres' & _) | (_ & _ & Hres' & _)]]]]];
    rewrite Hres' in Hres; inversion Hres; subst response;
    cbn [NewAccountResponse.status NewAccountResponse.errors].
  - split; [auto |]. split; [| discriminate].
    intro Hnil. apply app_eq_nil in Hnil. destruct Hnil. contradiction.
  - split; [auto |]. split; [contradiction | discriminate].
  - split; [auto |]. split; [contradiction | discriminate].
  - split; [auto |]. split; reflexivity.
Qed.

(** X12.  The progress reports of a run: the first is the single line
    "Validating account request", the second adds "Validated account
    request", and every report is the one before it with one more line at
    the end - also through the Provisioner's phases and when the run ends
    with an exception. *)
Theorem create_account_progress_grows :
  forall request w,
  exists result rows' trace reports,
    create_account validator provisioner_phases to_dict request w =
      (result, {| rows := rows'; log := log w ++ trace |})
    /\ progress trace =
         ["Validating account request"]
         :: ["Validating account request"; "Validated account request"]
         :: reports
    /\ grows_by_one_line [] (progress trace).
Proof.
  intros request w.
  destruct (create_account_cases request w)
    as (errors & warnings & result & rows' & trace & _ & Hrun
        & (reports & Hhead) & Hgrow & _).
  exists result, rows', trace, reports. auto.
Qed.

(** X13.  The request that [get_remove_row_by_user_name] rebuilds for an
    approval does not come back for review: a run of [create_account] on it
    leaves the table as it is, and a response it returns is REJECTED when
    the Validator reports errors and CREATED otherwise, never FLAGGED or
    PENDING. *)
Theorem approved_request_is_not_reviewed_again :
  forall (row : Row) request w result w',
    StoredNewAccountRequest.to_request row None = Ok request ->
    create_account validator provisioner_phases to_dict request w
    = (result, w') ->
    rows w' = rows w
    /\ forall response,
         result = Ok response ->
         (fst (validator request (rows w)) <> []
          /\ NewAccountResponse.status response = NewAccountResponse.REJECTED)
         \/ (fst (validator request (rows w)) = []
             /\ NewAccountResponse.status response
                = NewAccountResponse.CREATED).
Proof.
  intros row request w result w' Hreq Hrun'.
  destruct (to_request_total row None) as (request' & Hreq' & _ & Hmode).
  rewrite Hreq in Hreq'. inversion Hreq'; subst request'. clear Hreq'.
  destruct (create_account_cases request w)
    as (errors & warnings & result0 & rows' & trace & Hv & Hrun & _ & _ & Hcase).
  rewrite Hrun in Hrun'. inversion Hrun'; subst result0 w'. clear Hrun'.
  rewrite Hv. cbn [fst rows].
  destruct Hcase as [(Herr & Hres & Hrows & _)
                    | [(_ & _ & Hm & _)
                    | [(_ & _ & Hm & _)
                    | [(_ & _ & Hm & _)
                    | [(_ & _ & Hm & _) | (Herr & _ & Hres & Hrows & _)]]]]];
    try (rewrite Hm in Hmode; discriminate Hmode);
    (split; [exact Hrows |]); intros response Hresp;
    rewrite Hres in Hresp; inversion Hresp;
    cbn [NewAccountResponse.status].
  - left. split; [exact Herr | reflexivity].
  - right. split; [exact Herr | reflexivity].
Qed.

(** X14.  Once [create_account] has answered PENDING the dedup queries see
    the request: the table is the old table followed by one row that matches
    the request, [username_pending] answers True, [get_pending_requests]
    lists that row last, and [user_has_request_pending] answers True -
    except for a group whose organization ID is 0, which it still does not
    find. *)
Theorem submitted_request_is_pending :
  forall request w response w1 session,
    create_account validator provisioner_phases to_dict request w
    = (Ok response, w1) ->
    NewAccountResponse.status response = NewAccountResponse.PENDING ->
    exists stored,
      rows w1 = rows w ++ [stored]
      /\ fields_match stored request
      /\ username_pending session request w1 = (Ok true, w1)
      /\ get_pending_requests w1 = (Ok (rows w ++ [stored]), w1)
      /\ (NewAccountRequest.is_group request = true ->
          NewAccountRequest.callink_oid request = Some 0%Z ->
          user_has_request_pending session request w1 = (Ok false, w1))
      /\ (NewAccountRequest.is_group request = false \/
          NewAccountRequest.callink_oid request <> Some 0%Z ->
          user_has_request_pending session request w1 = (Ok true, w1)).
Proof.
  intros request w response w1 session Hok Hstatus.
  destruct (pending_means_stored request w response w1 Hok Hstatus)
    as (Hrows & _).
  set (stored := with_id (StoredNewAccountRequest.from_request request)
                         (next_id (rows w))) in *.
  exists stored.
  assert (Hsame : forall x, sql_eq_int x x = true).
  { intros [z |]; cbn; [apply Z.eqb_refl | reflexivity]. }
  split; [exact Hrows |]. split; [repeat split |].
  split; [| split; [| split]].
  - unfold username_pending, query_exists. rewrite Hrows, existsb_app.
    cbn [existsb]. unfold stored at 1.
    cbn [with_id StoredNewAccountRequest.from_request
         StoredNewAccountRequest.user_name].
    rewrite String.eqb_refl, orb_true_r. reflexivity.
  - unfold get_pending_requests, get_session, query_all, bind, ret.
    rewrite Hrows. reflexivity.
  - intros Hgroup Hoid. unfold user_has_request_pending.
    rewrite Hgroup, Hoid. reflexivity.
  - intros Hcase. unfold user_has_request_pending, query_exists, ret.
    destruct (NewAccountRequest.is_group request) eqn:Hgroup;
      cbn [andb negb].
    + destruct Hcase as [Hcase | Hoid]; [discriminate |].
      assert (Hne : py_ne_zero (NewAccountRequest.callink_oid request) = true).
      { destruct (NewAccountRequest.callink_oid request) as [z |];
          [| reflexivity].
        cbn. apply negb_true_iff, Z.eqb_neq. congruence. }
      rewrite Hne, Hrows, existsb_app. cbn [existsb]. unfold stored at 1.
      cbn [with_id StoredNewAccountRequest.from_request
           StoredNewAccountRequest.callink_oid].
      rewrite Hsame, orb_true_r. reflexivity.
    + rewrite Hrows, existsb_app. cbn [existsb]. unfold stored at 1.
      cbn [with_id StoredNewAccountRequest.from_request
           StoredNewAccountRequest.calnet_uid].
      rewrite Hsame, orb_true_r. reflexivity.
Qed.

(** X15.  Submission, then a decision.  Once [create_account] has answered
    PENDING, [get_remove_row_by_user_name] on the request's username returns
    the submitted request with mode CREATE and deletes exactly the row the
    submission inserted, so the table is what it was before the submission;
    an [approve_request] or [reject_request] that completes has done that
    and then enqueued, or mailed, and published that request. *)
Theorem submit_then_decide :
  forall request w response w1,
    create_account validator provisioner_phases to_dict request w
    = (Ok response, w1) ->
    NewAccountResponse.status response = NewAccountResponse.PENDING ->
    let approved := with_handle_warnings request WARNINGS_CREATE in
    exists stored,
      rows w1 = rows w ++ [stored]
      /\ fields_match stored request
      /\ get_remove_row_by_user_name (NewAccountRequest.user_name request) w1
         = (Ok approved,
            {| rows := rows w; log := log w1 ++ [SqlDelete stored] |})
      /\ (forall w2,
            approve_request to_dict (NewAccountRequest.user_name request) w1
            = (Ok tt, w2) ->
            w2 = {| rows := rows w;
                    log := log w1 ++
                           [SqlDelete stored; TaskDelay approved;
                            DispatchEvent "ocflib.account_approved"
                                          (to_dict approved)] |})
      /\ (forall w2,
            reject_request to_dict (NewAccountRequest.user_name request) w1
            = (Ok tt, w2) ->
            w2 = {| rows := rows w;
                    log := log w1 ++
                           [SqlDelete stored;
                            RejectedMail approved "TODO: come up with a reason";
                            DispatchEvent "ocflib.account_rejected"
                                          (to_dict approved)] |}).
Proof.
  intros request w response w1 Hok Hstatus approved.
  destruct (pending_means_stored request w response w1 Hok Hstatus)
    as (Hrows & Hfree).
  set (stored := with_id (StoredNewAccountRequest.from_request request)
                         (next_id (rows w))) in *.
  exists stored. split; [exact Hrows |]. split; [repeat split |].
  assert (Hfind : find (has_user_name (NewAccountRequest.user_name request))
                       (rows w1) = Some stored).
  { rewrite Hrows, find_app_none.
    - cbn [find]. unfold has_user_name, stored.
      cbn [with_id StoredNewAccountRequest.from_request
           StoredNewAccountRequest.user_name].
      rewrite String.eqb_refl. reflexivity.
    - apply find_none_iff_absent. apply free_iff. exact Hfree. }
  assert (Hreq : StoredNewAccountRequest.to_request stored None = Ok approved).
  { unfold stored, approved. destruct request as [u r g cu co e p m].
    destruct cu, co; reflexivity. }
  pose proof (delete_after_insert (rows w)
                (StoredNewAccountRequest.from_request request)) as Hdel.
  cbv zeta in Hdel. fold stored in Hdel.
  destruct (get_remove_row_found (NewAccountRequest.user_name request)
              stored w1 Hfind) as (request' & Hreq' & Hremove).
  rewrite Hreq in Hreq'. inversion Hreq'; subst request'. clear Hreq'.
  rewrite Hrows, Hdel in Hremove. split; [exact Hremove |].
  destruct (decision_cases to_dict (NewAccountRequest.user_name request) w1)
    as [(Hnone & _) | (row & request' & Hfind' & Hreq' & Happrove & Hreject)].
  - rewrite Hfind in Hnone. discriminate.
  - rewrite Hfind in Hfind'. inversion Hfind'; subst row.
    rewrite Hreq in Hreq'. inversion Hreq'; subst request'.
    rewrite Happrove, Hreject, Hrows, Hdel.
    split; intros w2 H; inversion H; reflexivity.
Qed.

End create_account_runs.

(* ===================================================================== *)
(** ** These properties on the sample data *)
(* ===================================================================== *)

Example carol_row_str :
  StoredNewAccountRequest.__str__ Sample.carol_row
  = "carol (individual), because of reasons".
Proof. reflexivity. Qed.

Lemma to_request_from_request_witness :
  StoredNewAccountRequest.to_request Sample.carol_row None
  = Ok Sample.carol_create
  /\ StoredNewAccountRequest.from_request Sample.carol_create
     = without_id Sample.carol_row.
Proof.
  split; [reflexivity |].
  exact (to_request_from_request Sample.carol_row None Sample.carol_create
           eq_refl).
Defined.

Lemma str_tells_rows_apart_witness :
  StoredNewAccountRequest.__str__ Sample.carol_row
  = StoredNewAccountRequest.__str__ (without_id Sample.carol_row)
  /\ StoredNewAccountRequest.user_name Sample.carol_row
     = StoredNewAccountRequest.user_name (without_id Sample.carol_row)
  /\ StoredNewAccountRequest.is_group Sample.carol_row
     = StoredNewAccountRequest.is_group (without_id Sample.carol_row).
Proof.
  split; [reflexivity |].
  exact (str_tells_rows_apart Sample.carol_row (without_id Sample.carol_row)
           eq_refl).
Defined.

Lemma decision_keeps_table_ok_witness :
  table_ok (rows Sample.carol_pending)
  /\ table_ok (rows (snd (approve_request Sample.to_dict "carol"
                            Sample.carol_pending)))
  /\ incl (rows (snd (approve_request Sample.to_dict "carol"
                        Sample.carol_pending)))
          (rows Sample.carol_pending)
  /\ table_ok (rows (snd (reject_request Sample.to_dict "carol"
                            Sample.carol_pending)))
  /\ incl (rows (snd (reject_request Sample.to_dict "carol"
                        Sample.carol_pending)))
          (rows Sample.carol_pending).
Proof.
  split; [exact carol_pending_ok |].
  exact (decision_keeps_table_ok Sample.to_dict "carol" Sample.carol_pending
           carol_pending_ok).
Defined.

Lemma completed_decision_deleted_a_row_witness :
  approve_request Sample.to_dict "carol" Sample.carol_pending
  = (Ok tt, snd (approve_request Sample.to_dict "carol" Sample.carol_pending))
  /\ exists row request,
       In row (rows Sample.carol_pending)
       /\ StoredNewAccountRequest.user_name row = "carol"
       /\ StoredNewAccountRequest.to_request row None = Ok request
       /\ snd (approve_request Sample.to_dict "carol" Sample.carol_pending)
          = {| rows := filter (fun row' => negb (same_id row row'))
                              (rows Sample.carol_pending);
               log := log Sample.carol_pending ++
                      [SqlDelete row; TaskDelay request;
                       DispatchEvent "ocflib.account_approved"
                                     (Sample.to_dict request)] |}.
Proof.
  split; [reflexivity |].
  destruct (completed_decision_deleted_a_row Sample.to_dict "carol"
              Sample.carol_pending) as [Happrove _].
  apply Happrove. reflexivity.
Defined.

Lemma response_status_tells_branch_witness :
  create_account Sample.wary_validator Sample.provisioner_phases
    Sample.to_dict Sample.carol Sample.nothing_pending
  = (Ok {| NewAccountResponse.status := NewAccountResponse.PENDING;
           NewAccountResponse.errors := ["Real name looks odd."] |},
     Sample.carol_submitted)
  /\ NewAccountRequest.handle_warnings Sample.carol = WARNINGS_SUBMIT
  /\ exists stored,
       rows Sample.carol_submitted = rows Sample.nothing_pending ++ [stored]
       /\ fields_match stored Sample.carol.
Proof.
  split; [reflexivity |].
  pose proof (response_status_tells_branch Sample.wary_validator
                Sample.provisioner_phases Sample.to_dict Sample.carol
                Sample.nothing_pending _ Sample.carol_submitted eq_refl)
    as H.
  cbv zeta in H. destruct H as (_ & _ & Hpending & _).
  destruct (Hpending eq_refl) as (_ & _ & Hmode & _ & _ & Hstored).
  split; [exact Hmode | exact Hstored].
Defined.

Lemma create_account_refused_insert_witness :
  Sample.wary_validator Sample.carol (rows Sample.carol_pending)
  = ([], ["Real name looks odd."])
  /\ In Sample.carol_row (rows Sample.carol_pending)
  /\ create_account Sample.wary_validator Sample.provisioner_phases
       Sample.to_dict Sample.carol Sample.carol_pending
     = (Raise IntegrityError,
        {| rows := rows Sample.carol_pending;
           log := log Sample.carol_pending ++
             [UpdateState ["Validating account request"];
              UpdateState ["Validating account request";
                           "Validated account request"];
              UpdateState ["Validating account request";
                           "Validated account request";
                           "Submitting account for staff approval"]] |}).
Proof.
  split; [reflexivity | split; [left; reflexivity |]].
  apply (create_account_refused_insert Sample.wary_validator
           Sample.provisioner_phases Sample.to_dict Sample.carol
           Sample.carol_pending ["Real name looks odd."] Sample.carol_row);
    [reflexivity | discriminate | reflexivity | reflexivity
    | left; reflexivity | reflexivity].
Defined.

Lemma create_account_keeps_table_ok_witness :
  table_ok (rows Sample.carol_pending)
  /\ table_ok
       (rows (snd (create_account Sample.wary_validator
                     Sample.provisioner_phases Sample.to_dict
                     (with_handle_warnings Sample.bob WARNINGS_SUBMIT)
                     Sample.carol_pending))).
Proof.
  split; [exact carol_pending_ok |].
  exact (create_account_keeps_table_ok Sample.wary_validator
           Sample.provisioner_phases Sample.to_dict
           (with_handle_warnings Sample.bob WARNINGS_SUBMIT)
           Sample.carol_pending carol_pending_ok).
Defined.

Lemma create_account_response_shape_witness :
  exists response w',
    create_account Sample.wary_validator Sample.provisioner_phases
      Sample.to_dict Sample.chess_club Sample.carol_pending
    = (Ok response, w')
    /\ NewAccountResponse.status response = NewAccountResponse.FLAGGED
    /\ (NewAccountResponse.errors response = []
        <-> NewAccountResponse.status response = NewAccountResponse.CREATED).
Proof.
  do 2 eexists. split; [reflexivity |]. split; [reflexivity |].
  apply (create_account_response_shape Sample.wary_validator
           Sample.provisioner_phases Sample.to_dict Sample.chess_club
           Sample.carol_pending _ _ eq_refl).
Defined.

Lemma approved_request_is_not_reviewed_again_witness :
  StoredNewAccountRequest.to_request Sample.carol_row None
  = Ok Sample.carol_create
  /\ rows (snd (create_account Sample.wary_validator
                  Sample.provisioner_phases Sample.to_dict
                  Sample.carol_create Sample.carol_pending))
     = rows Sample.carol_pending.
Proof.
  split; [reflexivity |].
  exact (proj1 (approved_request_is_not_reviewed_again Sample.wary_validator
                  Sample.provisioner_phases Sample.to_dict Sample.carol_row
                  Sample.carol_create Sample.carol_pending _ _ eq_refl
                  (surjective_pairing _))).
Defined.

Lemma submitted_request_is_pending_witness :
  create_account Sample.wary_validator Sample.provisioner_phases
    Sample.to_dict Sample.carol Sample.nothing_pending
  = (Ok {| NewAccountResponse.status := NewAccountResponse.PENDING;
           NewAccountResponse.errors := ["Real name looks odd."] |},
     Sample.carol_submitted)
  /\ exists stored,
       rows Sample.carol_submitted = rows Sample.nothing_pending ++ [stored]
       /\ username_pending Sample.fresh_session Sample.carol
            Sample.carol_submitted
          = (Ok true, Sample.carol_submitted)
       /\ user_has_request_pending Sample.fresh_session Sample.carol
            Sample.carol_submitted
          = (Ok true, Sample.carol_submitted).
Proof.
  split; [reflexivity |].
  destruct (submitted_request_is_pending Sample.wary_validator
              Sample.provisioner_phases Sample.to_dict Sample.carol
              Sample.nothing_pending _ Sample.carol_submitted
              Sample.fresh_session eq_refl eq_refl)
    as (stored & Hrows & _ & Hname & _ & _ & Hperson).
  exists stored. split; [exact Hrows | split; [exact Hname |]].
  apply Hperson. left. reflexivity.
Defined.

Lemma submit_then_decide_witness :
  create_account Sample.wary_validator Sample.provisioner_phases
    Sample.to_dict Sample.carol Sample.nothing_pending
  = (Ok {| NewAccountResponse.status := NewAccountResponse.PENDING;
           NewAccountResponse.errors := ["Real name looks odd."] |},
     Sample.carol_submitted)
  /\ exists stored,
       rows Sample.carol_submitted = rows Sample.nothing_pending ++ [stored]
       /\ get_remove_row_by_user_name "carol" Sample.carol_submitted
          = (Ok Sample.carol_create,
             {| rows := rows Sample.nothing_pending;
                log := log Sample.carol_submitted ++ [SqlDelete stored] |}).
Proof.
  split; [reflexivity |].
  pose proof (submit_then_decide Sample.wary_validator
                Sample.provisioner_phases Sample.to_dict Sample.carol
                Sample.nothing_pending _ Sample.carol_submitted
                eq_refl eq_refl) as H.
  cbv zeta in H. destruct H as (stored & Hrows & _ & Hremove & _).
  exists stored. split; [exact Hrows | exact Hremove].
Defined.
